(** * Ready-order payment initiation (route handler [POST])

    A shallow embedding of the request handler that starts a hosted checkout
    for an order that is ready and set to "pay on pickup".  The handler talks
    to three collaborators (order store, identity provider, payment
    initiator); they are passed in explicitly as a [World], every call made to
    them is recorded in a trace, and a thrown exception is an explicit
    [Throws] outcome that the handler's [try]/[catch] turns into a response. *)

From Stdlib Require Import String List Bool ZArith Lia.
From Stdlib Require Import Floats.PrimFloat.
From Stdlib Require Import Ascii.
From Stdlib Require Import Sorting.Sorted Sorting.Permutation.
From Stdlib Require Uint63.
Import ListNotations.

Local Open Scope string_scope.
Local Open Scope Z_scope.

(** ** JavaScript values

    The request body comes out of [request.json()] untyped, so the two
    identifiers are arbitrary JSON values.  Numbers are IEEE doubles. *)
Module Js.

#[local] Set Warnings "-register-all".

Inductive value : Type :=
| Undefined
| Null
| Bool (b : bool)
| Num (x : float)
| Str (s : string)
| Arr (items : list value)
| Obj (props : list (string * value)).

(** [ToBoolean]: what [!v], [a || b] and [a && b] test. *)
Definition truthy (v : value) : bool :=
  match v with
  | Undefined | Null => false
  | Bool b => b
  | Num x => negb (PrimFloat.eqb x 0%float || negb (PrimFloat.eqb x x))
  | Str s => negb (String.eqb s "")
  | Arr _ | Obj _ => true
  end.

(** [s === v] for a string [s]: only an equal string is strictly equal. *)
Definition strict_eq_string (s : string) (v : value) : bool :=
  match v with
  | Str t => String.eqb s t
  | _ => false
  end.

(** Own property of an object literal; an object is kept as its property
    list and the first binding of a key is the one that is read. *)
Fixpoint lookup (k : string) (props : list (string * value)) : value :=
  match props with
  | [] => Undefined
  | (k', v) :: rest => if String.eqb k k' then v else lookup k rest
  end.

(** An optional string field: absent is [undefined]. *)
Definition of_option (o : option string) : value :=
  match o with
  | Some s => Str s
  | None => Undefined
  end.

(** [o || d] for an optional string [o]: the empty string is falsy too. *)
Definition or_else (o : option string) (d : string) : string :=
  match o with
  | Some s => if String.eqb s "" then d else s
  | None => d
  end.

(** [`${o}`] for an optional string: [undefined] prints as its name. *)
Definition template (o : option string) : string :=
  match o with
  | Some s => s
  | None => "undefined"
  end.

End Js.

(** ** Outcomes of awaited calls and the handler's effect monad *)

Inductive Outcome (A : Type) : Type :=
| Returns (a : A)
| Throws (e : Js.value).
Arguments Returns {A} a.
Arguments Throws {A} e.

(** Order lifecycle stages, as the dashboard enumerates them. *)
Inductive OrderStatus : Type :=
| PENDING | PICKED_UP | CONFIRMED | IN_PROGRESS | READY | DELIVERED | CANCELLED.

(** Modelled from the spec: the payment methods of [@/lib/types] (the
    declaration is not part of the sources at hand); §3 names pay-online,
    pay-on-pickup and pay-by-transfer. *)
Inductive PaymentMethod : Type :=
| PAY_ONLINE | PAY_ON_PICKUP | PAY_BY_TRANSFER.

Definition OrderStatus_eqb (a b : OrderStatus) : bool :=
  match a, b with
  | PENDING, PENDING | PICKED_UP, PICKED_UP | CONFIRMED, CONFIRMED
  | IN_PROGRESS, IN_PROGRESS | READY, READY | DELIVERED, DELIVERED
  | CANCELLED, CANCELLED => true
  | _, _ => false
  end.

Definition PaymentMethod_eqb (a b : PaymentMethod) : bool :=
  match a, b with
  | PAY_ONLINE, PAY_ONLINE | PAY_ON_PICKUP, PAY_ON_PICKUP
  | PAY_BY_TRANSFER, PAY_BY_TRANSFER => true
  | _, _ => false
  end.

(** Modelled from the spec: the order record of [@/lib/types], restricted to
    the fields the handler reads. *)
Module Order.
Record t : Type := mk
  { customerId : string;
    status : OrderStatus;
    paymentMethod : PaymentMethod;
    finalAmount : float }.
End Order.

(** Modelled from the spec: [getOrderById(id) -> {success, data:{order}, error?}]. *)
Module OrderResponse.
Record payload : Type := mkPayload { order : Order.t }.
Record t : Type := mk
  { success : bool;
    data : option payload;
    error : option string }.
End OrderResponse.

(** Modelled from the spec: the phone of a customer profile is a bare string
    or a structured value with a [number] field, or is not there at all. *)
Inductive Phone : Type :=
| NoPhone
| PlainPhone (s : string)
| StructuredPhone (number : option string).

(** Modelled from the spec: the customer profile of §3, as
    [getUserProfile] hands it over. *)
Module Customer.
Record t : Type := mk
  { email : string;
    firstName : string;
    lastName : string;
    phone : Phone }.
End Customer.

(** Modelled from the spec: [getUserProfile(id) -> {success, data, error?}]. *)
Module ProfileResponse.
Record t : Type := mk
  { success : bool;
    data : option Customer.t }.
End ProfileResponse.

(** The request handed to the payment initiator (lines 71-83). *)
Module Metadata.
Record t : Type := mk
  { orderId : Js.value;
    customerId : Js.value;
    customerName : string;
    phoneNumber : string;
    paymentType : string }.
End Metadata.

Module PaymentData.
Record t : Type := mk
  { email : string;
    amount : float;
    currency : string;
    metadata : Metadata.t;
    callback_url : string }.
End PaymentData.

(** Modelled from the spec:
    [initializePayment(..) -> {success, data:{authorizationUrl, reference}, error?}];
    the handler itself guards against a missing [data] and a missing URL. *)
Module PaymentResult.
Record payload : Type := mkPayload
  { authorizationUrl : option string;
    reference : option string }.
Record t : Type := mk
  { success : bool;
    data : option payload;
    error : option string }.
End PaymentResult.

(** What [NextResponse.json(body, { status })] carries. *)
Module Response.
Record t : Type := mk
  { body : Js.value;
    status : Z }.
End Response.

(** Modelled from the spec: the operations of the collaborators.  The three
    lookups and the payment initiation are the ones the handler calls; the
    order store also offers create and update (§2), listed so that a trace
    can say the handler never reaches for them. *)
Inductive Call : Type :=
| GetOrderById (orderId : Js.value)
| GetUserProfile (customerId : Js.value)
| InitializePayment (paymentData : PaymentData.t)
| CreateOrder
| UpdateOrder (orderId : Js.value).

Inductive Event : Type :=
| Log (label : string)
| LogError (label : string)
| Invoke (c : Call).

(** The environment of one invocation. *)
Record World : Type := mkWorld
  { request_json : Outcome Js.value;
    getOrderById : Js.value -> Outcome OrderResponse.t;
    getUserProfile : Js.value -> Outcome ProfileResponse.t;
    initializePayment : PaymentData.t -> Outcome PaymentResult.t;
    NEXT_PUBLIC_APP_URL : option string }.

(** A computation leaves a trace and either returns or throws. *)
Definition M (A : Type) : Type := (list Event * Outcome A)%type.

Definition ret {A} (a : A) : M A := ([], Returns a).

Definition bind {A B} (m : M A) (k : A -> M B) : M B :=
  match m with
  | (t, Returns a) => let (t', r) := k a in ((t ++ t')%list, r)
  | (t, Throws e) => (t, Throws e)
  end.

Definition await {A} (o : Outcome A) : M A := ([], o).
Definition invoke {A} (c : Call) (o : Outcome A) : M A := ([Invoke c], o).
Definition console_log (label : string) : M unit := ([Log label], Returns tt).
Definition console_error (label : string) : M unit := ([LogError label], Returns tt).

Definition try_catch {A} (m : M A) (handler : Js.value -> M A) : M A :=
  match m with
  | (t, Throws e) => let (t', r) := handler e in ((t ++ t')%list, r)
  | (_, Returns _) => m
  end.

Declare Scope handler_scope.
Delimit Scope handler_scope with handler.
Notation "x <- c1 ;; c2" := (bind c1 (fun x => c2))
  (at level 100, c1 at next level, right associativity) : handler_scope.
Notation "c1 ;; c2" := (bind c1 (fun _ => c2))
  (at level 100, right associativity) : handler_scope.
Local Open Scope handler_scope.

(** ** The handler *)

(** [NextResponse.json(body)] and [NextResponse.json(body, { status })]. *)
Definition json (body : Js.value) (status : Z) : Response.t :=
  Response.mk body status.

Definition failure (message : string) : Js.value :=
  Js.Obj [("success", Js.Bool false); ("error", Js.Str message)].

Definition checkout (r : PaymentResult.payload) : Js.value :=
  Js.Obj [("success", Js.Bool true);
          ("data", Js.Obj
             [("authorizationUrl", Js.of_option (PaymentResult.authorizationUrl r));
              ("reference", Js.of_option (PaymentResult.reference r))])].

(** [const { orderId, customerId } = body]: reading a property of [null] or
    [undefined] throws; any other non-object has neither property. *)
Definition type_error : Js.value := Js.Str "TypeError".

Definition destructure (body : Js.value) : Outcome (Js.value * Js.value) :=
  match body with
  | Js.Undefined | Js.Null => Throws type_error
  | Js.Obj props => Returns (Js.lookup "orderId" props, Js.lookup "customerId" props)
  | _ => Returns (Js.Undefined, Js.Undefined)
  end.

(** Line 79:
    [typeof phone === 'string' ? phone : phone?.number || '']. *)
Definition phoneNumber (p : Phone) : string :=
  match p with
  | PlainPhone s => s
  | StructuredPhone number => Js.or_else number ""
  | NoPhone => ""
  end.

(** Lines 71-83. *)
Definition paymentData (w : World) (orderId customerId : Js.value)
    (order : Order.t) (customer : Customer.t) : PaymentData.t :=
  {| PaymentData.email := Customer.email customer;
     PaymentData.amount := Order.finalAmount order;
     PaymentData.currency := "NGN";
     PaymentData.metadata :=
       {| Metadata.orderId := orderId;
          Metadata.customerId := customerId;
          Metadata.customerName :=
            Customer.firstName customer ++ " " ++ Customer.lastName customer;
          Metadata.phoneNumber := phoneNumber (Customer.phone customer);
          Metadata.paymentType := "pay_on_pickup" |};
     PaymentData.callback_url :=
       Js.template (NEXT_PUBLIC_APP_URL w) ++ "/payment/callback" |}.

(** [paymentResult.success && paymentResult.data?.authorizationUrl]: the
    payload to answer with, when the test is truthy. *)
Definition authorized (r : PaymentResult.t) : option PaymentResult.payload :=
  if PaymentResult.success r then
    match PaymentResult.data r with
    | Some d =>
        if Js.truthy (Js.of_option (PaymentResult.authorizationUrl d))
        then Some d else None
    | None => None
    end
  else None.

(** The body of the [try] block (lines 9-101). *)
Definition POST_try (w : World) : M Response.t :=
  body <- await (request_json w) ;;
  ids <- await (destructure body) ;;
  let (orderId, customerId) := ids in
  console_log "Ready order payment request:" ;;
  if negb (Js.truthy orderId) || negb (Js.truthy customerId) then
    ret (json (failure "Order ID and Customer ID are required") 400)
  else
    console_log "Fetching order details for:" ;;
    orderResponse <- invoke (GetOrderById orderId) (getOrderById w orderId) ;;
    console_log "Order response:" ;;
    match OrderResponse.success orderResponse, OrderResponse.data orderResponse with
    | true, Some data =>
        let order := OrderResponse.order data in
        if negb (Js.strict_eq_string (Order.customerId order) customerId) then
          ret (json (failure "Unauthorized access to order") 403)
        else if negb (OrderStatus_eqb (Order.status order) READY) then
          ret (json (failure "Order is not ready for pickup") 400)
        else if negb (PaymentMethod_eqb (Order.paymentMethod order) PAY_ON_PICKUP) then
          ret (json (failure "Order is not set for pay on pickup") 400)
        else
          customerResponse <-
            invoke (GetUserProfile customerId) (getUserProfile w customerId) ;;
          match ProfileResponse.success customerResponse,
                ProfileResponse.data customerResponse with
          | true, Some customer =>
              let pd := paymentData w orderId customerId order customer in
              paymentResult <- invoke (InitializePayment pd) (initializePayment w pd) ;;
              match authorized paymentResult with
              | Some d => ret (json (checkout d) 200)
              | None =>
                  ret (json (failure (Js.or_else (PaymentResult.error paymentResult)
                                        "Failed to initialize payment")) 500)
              end
          | _, _ => ret (json (failure "Customer not found") 404)
          end
    | _, _ =>
        console_log "Order not found or error:" ;;
        ret (json (failure (Js.or_else (OrderResponse.error orderResponse)
                              "Order not found")) 404)
    end.

(** The whole handler: whatever is thrown inside is logged and answered with
    a fixed message (lines 103-109). *)
Definition POST_run (w : World) : M Response.t :=
  try_catch (POST_try w)
    (fun _ =>
       console_error "Ready order payment error:" ;;
       ret (json (failure "Internal server error") 500)).

(** The [catch] block returns, so the handler always has a response; the
    fallback below is never taken (see [POST_run_returns]). *)
Definition POST (w : World) : list Event * Response.t :=
  match POST_run w with
  | (t, Returns r) => (t, r)
  | (t, Throws _) => (t, json (failure "Internal server error") 500)
  end.

Definition trace (w : World) : list Event := fst (POST w).
Definition response (w : World) : Response.t := snd (POST w).

(** The collaborator calls of a trace, in order. *)
Fixpoint calls (t : list Event) : list Call :=
  match t with
  | [] => []
  | Invoke c :: rest => c :: calls rest
  | _ :: rest => calls rest
  end.

Definition is_payment_call (c : Call) : bool :=
  match c with InitializePayment _ => true | _ => false end.

Definition is_store_write (c : Call) : bool :=
  match c with CreateOrder | UpdateOrder _ => true | _ => false end.

Definition payment_calls (w : World) : nat :=
  List.length (List.filter is_payment_call (calls (trace w))).

(** The calls come in the order lookup, profile, payment, each at most once
    and stopping anywhere. *)
Definition ordered_reads (cs : list Call) : bool :=
  match cs with
  | [] => true
  | [GetOrderById _] => true
  | [GetOrderById _; GetUserProfile _] => true
  | [GetOrderById _; GetUserProfile _; InitializePayment _] => true
  | _ => false
  end.

(** What every invocation that gets to the order lookup has done by then. *)
Definition lookup_trace (orderId : Js.value) : list Event :=
  [Log "Ready order payment request:"; Log "Fetching order details for:";
   Invoke (GetOrderById orderId); Log "Order response:"].

(** ** The specification's reading of an invocation

    The outcome categories of §7 and the validation sequence of §4.1,
    written down from the specification's wording and independently of
    [POST]; the theorems below compare the two. *)

Inductive Category : Type :=
| Success
| MalformedRequest
| NotFound
| Unauthorized
| InvalidState
| DependencyNotFound
| PaymentFailure
| UnexpectedFault.

Definition is_success (c : Category) : bool :=
  match c with Success => true | _ => false end.

(** §6: malformed request 400, not found 404, unauthorized 403, not-ready or
    wrong method 400, payment failure or unexpected fault 500.  The
    specification gives no code for success (the transport's default, 200)
    nor for an unresolved customer (answered like a missing order). *)
Definition transport_code (c : Category) : Z :=
  match c with
  | Success => 200
  | MalformedRequest => 400
  | NotFound => 404
  | Unauthorized => 403
  | InvalidState => 400
  | DependencyNotFound => 404
  | PaymentFailure => 500
  | UnexpectedFault => 500
  end.

(** Step 1: an identifier is present when it is there and not empty. *)
Definition present (id : Js.value) : bool := Js.truthy id.

(** Step 2: the order of a lookup that succeeded with data. *)
Definition found_order (r : OrderResponse.t) : option Order.t :=
  if OrderResponse.success r
  then option_map OrderResponse.order (OrderResponse.data r)
  else None.

(** Step 6: the profile of a lookup that succeeded with data. *)
Definition resolved_customer (r : ProfileResponse.t) : option Customer.t :=
  if ProfileResponse.success r then ProfileResponse.data r else None.

(** Step 9: success with a checkout URL present. *)
Definition has_checkout_url (r : PaymentResult.t) : bool :=
  PaymentResult.success r &&
  match PaymentResult.data r with
  | Some d =>
      match PaymentResult.authorizationUrl d with
      | Some url => negb (String.eqb url "")
      | None => false
      end
  | None => false
  end.

(** §3: a success result holds "a hosted checkout URL plus an opaque payment
    reference"; a success payload is complete when both are there. *)
Definition complete_payload (r : PaymentResult.t) : bool :=
  match PaymentResult.data r with
  | Some d =>
      match PaymentResult.authorizationUrl d, PaymentResult.reference d with
      | Some _, Some _ => true
      | _, _ => false
      end
  | None => false
  end.

(** Steps 3-9, for a request that carries both identifiers. *)
Definition classify_order (w : World) (orderId customerId : Js.value)
    (order : Order.t) : Category :=
  if negb (Js.strict_eq_string (Order.customerId order) customerId) then Unauthorized
  else if negb (OrderStatus_eqb (Order.status order) READY) then InvalidState
  else if negb (PaymentMethod_eqb (Order.paymentMethod order) PAY_ON_PICKUP)
  then InvalidState
  else
    match getUserProfile w customerId with
    | Throws _ => UnexpectedFault
    | Returns cr =>
        match resolved_customer cr with
        | None => DependencyNotFound
        | Some customer =>
            match initializePayment w
                    (paymentData w orderId customerId order customer) with
            | Throws _ => UnexpectedFault
            | Returns pr => if has_checkout_url pr then Success else PaymentFailure
            end
        end
    end.

Definition classify (w : World) : Category :=
  match request_json w with
  | Throws _ => UnexpectedFault
  | Returns body =>
      match destructure body with
      | Throws _ => UnexpectedFault
      | Returns (orderId, customerId) =>
          if negb (present orderId) || negb (present customerId)
          then MalformedRequest
          else
            match getOrderById w orderId with
            | Throws _ => UnexpectedFault
            | Returns r =>
                match found_order r with
                | None => NotFound
                | Some order => classify_order w orderId customerId order
                end
            end
      end
  end.

(** How many payment initiations the specification's sequence allows an
    invocation of each category: one once step 8 is reached, none before; a
    fault can strike on either side of it. *)
Definition payment_calls_allowed (c : Category) (n : nat) : Prop :=
  match c with
  | Success | PaymentFailure => n = 1%nat
  | UnexpectedFault => (n <= 1)%nat
  | _ => n = 0%nat
  end.

(** *** Hypotheses of the per-step statements, on the collaborators' answers *)

(** The request parses to a body that yields these two identifiers. *)
Definition receives (w : World) (orderId customerId : Js.value) : Prop :=
  exists body,
    request_json w = Returns body /\
    destructure body = Returns (orderId, customerId).

(** ... and both identifiers are present. *)
Definition well_formed (w : World) (orderId customerId : Js.value) : Prop :=
  receives w orderId customerId /\
  Js.truthy orderId = true /\
  Js.truthy customerId = true.

(** The order store answers the lookup of [orderId] with [order]. *)
Definition stores (w : World) (orderId : Js.value) (order : Order.t) : Prop :=
  exists r,
    getOrderById w orderId = Returns r /\
    OrderResponse.success r = true /\
    OrderResponse.data r = Some (OrderResponse.mkPayload order).

(** The order store answers the lookup, but without a usable order. *)
Definition not_stored (w : World) (orderId : Js.value)
    (r : OrderResponse.t) : Prop :=
  getOrderById w orderId = Returns r /\
  (OrderResponse.success r = false \/ OrderResponse.data r = None).

(** The identity provider resolves [customerId] to [customer]. *)
Definition resolves (w : World) (customerId : Js.value)
    (customer : Customer.t) : Prop :=
  exists r,
    getUserProfile w customerId = Returns r /\
    ProfileResponse.success r = true /\
    ProfileResponse.data r = Some customer.

(** The identity provider answers, but without a usable profile. *)
Definition unresolved (w : World) (customerId : Js.value) : Prop :=
  exists r,
    getUserProfile w customerId = Returns r /\
    (ProfileResponse.success r = false \/ ProfileResponse.data r = None).

(** The order belongs to the customer named in the request. *)
Definition owned_by (order : Order.t) (customerId : Js.value) : Prop :=
  customerId = Js.Str (Order.customerId order).

(** A well-formed request on a stored order of the requesting customer. *)
Definition own_order (w : World) (orderId customerId : Js.value)
    (order : Order.t) : Prop :=
  well_formed w orderId customerId /\
  stores w orderId order /\
  owned_by order customerId.

(** ... that is ready and to be paid on pickup. *)
Definition eligible (w : World) (orderId customerId : Js.value)
    (order : Order.t) : Prop :=
  own_order w orderId customerId order /\
  Order.status order = READY /\
  Order.paymentMethod order = PAY_ON_PICKUP.

(** ** Concrete worlds: the scenario of §8, item 10, and its variations *)

Definition order_with (s : OrderStatus) (m : PaymentMethod) : Order.t :=
  {| Order.customerId := "C1"; Order.status := s;
     Order.paymentMethod := m; Order.finalAmount := 500000%float |}.

Definition order_O1 : Order.t := order_with READY PAY_ON_PICKUP.

Definition customer_with (p : Phone) : Customer.t :=
  {| Customer.email := "a@b.com"; Customer.firstName := "Ada";
     Customer.lastName := "Lovelace"; Customer.phone := p |}.

Definition ada : Customer.t := customer_with (PlainPhone "08012345678").

Definition request_by (customerId : string) : Js.value :=
  Js.Obj [("orderId", Js.Str "O1"); ("customerId", Js.Str customerId)].

Definition request_O1 : Js.value := request_by "C1".

Definition no_customer_request : Js.value := Js.Obj [("orderId", Js.Str "O1")].

Definition paid (url reference : option string) : PaymentResult.t :=
  {| PaymentResult.success := true;
     PaymentResult.data := Some (PaymentResult.mkPayload url reference);
     PaymentResult.error := None |}.

Definition paid_REF123 : PaymentResult.t :=
  paid (Some "https://pay.example/x") (Some "REF123").

Definition paid_without_url : PaymentResult.t := paid None (Some "REF123").

Definition paid_without_reference : PaymentResult.t :=
  paid (Some "https://pay.example/x") None.

Definition declined : PaymentResult.t :=
  {| PaymentResult.success := false;
     PaymentResult.data := None;
     PaymentResult.error := Some "Card declined" |}.

Definition found (o : Order.t) : OrderResponse.t :=
  {| OrderResponse.success := true;
     OrderResponse.data := Some (OrderResponse.mkPayload o);
     OrderResponse.error := None |}.

Definition no_such_order : OrderResponse.t :=
  {| OrderResponse.success := false;
     OrderResponse.data := None;
     OrderResponse.error := Some "Document not found" |}.

Definition resolved (c : Customer.t) : ProfileResponse.t :=
  {| ProfileResponse.success := true; ProfileResponse.data := Some c |}.

Definition unknown_customer : ProfileResponse.t :=
  {| ProfileResponse.success := false; ProfileResponse.data := None |}.

Definition world_of (body : Js.value) (o : OrderResponse.t)
    (c : ProfileResponse.t) (p : PaymentResult.t) : World :=
  {| request_json := Returns body;
     getOrderById := fun _ => Returns o;
     getUserProfile := fun _ => Returns c;
     initializePayment := fun _ => Returns p;
     NEXT_PUBLIC_APP_URL := Some "https://app.example" |}.

Definition scenario : World :=
  world_of request_O1 (found order_O1) (resolved ada) paid_REF123.

(** A request body that is not JSON: [request.json()] rejects, and the
    rejection carries the parser's message. *)
Definition unparsable : World :=
  {| request_json := Throws (Js.Str "Unexpected token < in JSON at position 0");
     getOrderById := fun _ => Returns (found order_O1);
     getUserProfile := fun _ => Returns (resolved ada);
     initializePayment := fun _ => Returns paid_REF123;
     NEXT_PUBLIC_APP_URL := Some "https://app.example" |}.

(** Worlds in which a collaborator throws instead of answering, and one
    without the application URL configured. *)
Definition network_down : Js.value := Js.Str "fetch failed".

Definition failing_store : World :=
  {| request_json := Returns request_O1;
     getOrderById := fun _ => Throws network_down;
     getUserProfile := fun _ => Returns (resolved ada);
     initializePayment := fun _ => Returns paid_REF123;
     NEXT_PUBLIC_APP_URL := Some "https://app.example" |}.

Definition failing_identity : World :=
  {| request_json := Returns request_O1;
     getOrderById := fun _ => Returns (found order_O1);
     getUserProfile := fun _ => Throws network_down;
     initializePayment := fun _ => Returns paid_REF123;
     NEXT_PUBLIC_APP_URL := Some "https://app.example" |}.

Definition failing_initiator : World :=
  {| request_json := Returns request_O1;
     getOrderById := fun _ => Returns (found order_O1);
     getUserProfile := fun _ => Returns (resolved ada);
     initializePayment := fun _ => Throws network_down;
     NEXT_PUBLIC_APP_URL := Some "https://app.example" |}.

Definition unconfigured : World :=
  {| request_json := Returns request_O1;
     getOrderById := fun _ => Returns (found order_O1);
     getUserProfile := fun _ => Returns (resolved ada);
     initializePayment := fun _ => Returns paid_REF123;
     NEXT_PUBLIC_APP_URL := None |}.

(** A JSON value that is neither an object nor [null]. *)
Definition is_scalar_or_array (v : Js.value) : bool :=
  match v with
  | Js.Bool _ | Js.Num _ | Js.Str _ | Js.Arr _ => true
  | _ => false
  end.

(** §4.1, step 1, read on the request itself: an identifier is present when
    the body is a record that holds a non-empty value under its name. *)
Definition identifier_present (w : World) (name : string) : bool :=
  match request_json w with
  | Returns (Js.Obj props) => Js.truthy (Js.lookup name props)
  | _ => false
  end.

(** A request whose body is the JSON text [null]. *)
Definition null_body : World :=
  world_of Js.Null (found order_O1) (resolved ada) paid_REF123.

(** ** The registration form ([app/register/page.tsx]) *)

(** [encodeURIComponent] on a string kept as its UTF-8 bytes: the unreserved
    ASCII characters stand for themselves, every other byte becomes [%XX]. *)
Module Uri.

Definition between (lo hi c : N) : bool := (lo <=? c)%N && (c <=? hi)%N.

Definition unreserved (c : Ascii.ascii) : bool :=
  let n := Ascii.N_of_ascii c in
  between 65 90 n || between 97 122 n || between 48 57 n ||
  existsb (N.eqb n) [45; 95; 46; 33; 126; 42; 39; 40; 41]%N.

Definition hex_digit (n : N) : Ascii.ascii :=
  Ascii.ascii_of_N (if (n <? 10)%N then 48 + n else 55 + n)%N.

Definition percent (c : Ascii.ascii) : string :=
  let n := Ascii.N_of_ascii c in
  String "%"%char (String (hex_digit (n / 16)) (String (hex_digit (n mod 16)) EmptyString)).

Fixpoint encodeURIComponent (s : string) : string :=
  match s with
  | EmptyString => EmptyString
  | String c rest =>
      (if unreserved c then String c EmptyString else percent c)
      ++ encodeURIComponent rest
  end.

End Uri.

Module Register.

(** What is typed into an input: a JavaScript string as its sequence of
    UTF-16 code units, so that [length] is [value.length]. *)
Definition text : Type := list N.

Definition of_ascii (s : string) : text :=
  map Ascii.N_of_ascii (list_ascii_of_string s).

Definition text_eqb (a b : text) : bool :=
  if list_eq_dec N.eq_dec a b then true else false.

(** [value &&], [if (message)]: a string is truthy when it is not empty. *)
Definition filled (v : text) : bool :=
  match v with [] => false | _ => true end.

Definition shown (message : string) : bool := negb (String.eqb message "").

Module FormData.
Record t : Type := mk
  { firstName : text;
    lastName : text;
    email : text;
    phone : text;
    password : text;
    confirmPassword : text }.
End FormData.

(** The [name] attributes of the six inputs. *)
Inductive InputName : Type :=
| firstName | lastName | email | phone | password | confirmPassword.

(** [{ ...prev, [name]: value }] *)
Definition with_field (name : InputName) (value : text)
    (prev : FormData.t) : FormData.t :=
  match name with
  | firstName =>
      FormData.mk value (FormData.lastName prev) (FormData.email prev)
        (FormData.phone prev) (FormData.password prev) (FormData.confirmPassword prev)
  | lastName =>
      FormData.mk (FormData.firstName prev) value (FormData.email prev)
        (FormData.phone prev) (FormData.password prev) (FormData.confirmPassword prev)
  | email =>
      FormData.mk (FormData.firstName prev) (FormData.lastName prev) value
        (FormData.phone prev) (FormData.password prev) (FormData.confirmPassword prev)
  | phone =>
      FormData.mk (FormData.firstName prev) (FormData.lastName prev)
        (FormData.email prev) value (FormData.password prev)
        (FormData.confirmPassword prev)
  | password =>
      FormData.mk (FormData.firstName prev) (FormData.lastName prev)
        (FormData.email prev) (FormData.phone prev) value
        (FormData.confirmPassword prev)
  | confirmPassword =>
      FormData.mk (FormData.firstName prev) (FormData.lastName prev)
        (FormData.email prev) (FormData.phone prev) (FormData.password prev) value
  end.

(** The component's state (lines 22-33). *)
Record State : Type := mkState
  { formData : FormData.t;
    isLoading : bool;
    error : string;
    phoneError : string;
    passwordError : string }.

Definition setFormData (f : FormData.t -> FormData.t) (s : State) : State :=
  mkState (f (formData s)) (isLoading s) (error s) (phoneError s) (passwordError s).
Definition setIsLoading (b : bool) (s : State) : State :=
  mkState (formData s) b (error s) (phoneError s) (passwordError s).
Definition setError (m : string) (s : State) : State :=
  mkState (formData s) (isLoading s) m (phoneError s) (passwordError s).
Definition setPhoneError (m : string) (s : State) : State :=
  mkState (formData s) (isLoading s) (error s) m (passwordError s).
Definition setPasswordError (m : string) (s : State) : State :=
  mkState (formData s) (isLoading s) (error s) (phoneError s) m.

Definition initial : State :=
  mkState (FormData.mk [] [] [] [] [] []) false "" "" "".

(** The regular expression [/^(?=.*[a-z])(?=.*[A-Z])(?=.*\d)/]: three
    lookaheads at the start of the string.  [.] is any code unit but a line
    terminator; the classes are the ASCII ranges. *)
Definition line_terminator (c : N) : bool :=
  existsb (N.eqb c) [10; 13; 8232; 8233]%N.

Definition lower (c : N) : bool := Uri.between 97 122 c.
Definition upper (c : N) : bool := Uri.between 65 90 c.
Definition digit (c : N) : bool := Uri.between 48 57 c.

(** [.*X] matched from the head of [s]: [X] here, or one [.] and again. *)
Fixpoint any_then (X : N -> bool) (s : text) : bool :=
  match s with
  | [] => false
  | c :: rest => X c || (negb (line_terminator c) && any_then X rest)
  end.

Definition mixed (value : text) : bool :=
  any_then lower value && any_then upper value && any_then digit value.

Definition invalid_phone : string :=
  "Please enter a valid Nigerian phone number (0XXXXXXXXXX)".
Definition too_short : string :=
  "Password must be at least 8 characters long".
Definition not_mixed : string :=
  "Password must contain at least one uppercase letter, one lowercase letter, and one number".

(** What the component gets from outside: the phone validator of
    [@/lib/validations] and [register] of the auth context. *)
Module Registration.
Record t : Type := mk
  { firstName : text;
    lastName : text;
    email : text;
    phone : text;
    password : text }.
End Registration.

Module Result.
Record t : Type := mk
  { success : bool;
    error : option string }.
End Result.

Record Env : Type := mkEnv
  { validateNigerianPhone : text -> bool;
    register : Registration.t -> Outcome Result.t }.

(** Lines 38-61. *)
Definition handleInputChange (env : Env) (name : InputName) (value : text)
    (s : State) : State :=
  let s := setFormData (with_field name value) s in
  let s :=
    match name with
    | phone =>
        if filled value && negb (validateNigerianPhone env value)
        then setPhoneError invalid_phone s
        else setPhoneError "" s
    | _ => s
    end in
  match name with
  | password =>
      if filled value && (List.length value <? 8)%nat
      then setPasswordError too_short s
      else if filled value && negb (mixed value)
      then setPasswordError not_mixed s
      else setPasswordError "" s
  | _ => s
  end.

(** What a submission does besides setting state. *)
Inductive Action : Type :=
| PreventDefault
| CallRegister (data : Registration.t)
| RouterPush (url : string).

Definition successMessage : string :=
  "Registration successful! Please check your email for verification and log in to continue.".

Definition registration (f : FormData.t) : Registration.t :=
  {| Registration.firstName := FormData.firstName f;
     Registration.lastName := FormData.lastName f;
     Registration.email := FormData.email f;
     Registration.phone := FormData.phone f;
     Registration.password := FormData.password f |}.

(** Lines 63-124: the state after the handler and what it did, in order. *)
Definition handleSubmit (env : Env) (s0 : State) : State * list Action :=
  let f := formData s0 in
  let s := setError "" s0 in
  if negb (text_eqb (FormData.password f) (FormData.confirmPassword f)) then
    (setError "Passwords do not match" s, [PreventDefault])
  else if shown (phoneError s0) then
    (setError (phoneError s0) s, [PreventDefault])
  else if shown (passwordError s0) then
    (setError (passwordError s0) s, [PreventDefault])
  else if negb (validateNigerianPhone env (FormData.phone f)) then
    (setError invalid_phone s, [PreventDefault])
  else if (List.length (FormData.password f) <? 8)%nat then
    (setError too_short s, [PreventDefault])
  else if negb (mixed (FormData.password f)) then
    (setError not_mixed s, [PreventDefault])
  else
    let s := setIsLoading true s in
    match register env (registration f) with
    | Returns result =>
        if Result.success result then
          (setIsLoading false (setError "" s),
           [PreventDefault; CallRegister (registration f);
            RouterPush ("/login?message=" ++ Uri.encodeURIComponent successMessage
                        ++ "&type=success")])
        else
          (setIsLoading false
             (setError (Js.or_else (Result.error result) "Registration failed") s),
           [PreventDefault; CallRegister (registration f)])
    | Throws _ =>
        (setIsLoading false (setError "An unexpected error occurred" s),
         [PreventDefault; CallRegister (registration f)])
    end.

Definition is_register (a : Action) : bool :=
  match a with CallRegister _ => true | _ => false end.

(** Line 302: when the submit button is disabled. *)
Definition submit_disabled (s : State) : bool :=
  isLoading s || shown (phoneError s) || shown (passwordError s).

(** The part of a string before its first line terminator. *)
Fixpoint first_line (s : text) : text :=
  match s with
  | [] => []
  | c :: rest => if line_terminator c then [] else c :: first_line rest
  end.

(** A sample validator for the examples: eleven digits, the first a zero. *)
Definition eleven_digits (v : text) : bool :=
  (List.length v =? 11)%nat && forallb digit v &&
  match v with c :: _ => (c =? 48)%N | [] => false end.

Definition accepting : Env :=
  {| validateNigerianPhone := eleven_digits;
     register := fun _ => Returns (Result.mk true None) |}.

Definition rejecting : Env :=
  {| validateNigerianPhone := eleven_digits;
     register := fun _ => Returns (Result.mk false (Some "Email already in use")) |}.

Definition crashing : Env :=
  {| validateNigerianPhone := eleven_digits;
     register := fun _ => Throws (Js.Str "fetch failed") |}.

Definition filled_in (pw confirm : string) : State :=
  mkState
    (FormData.mk (of_ascii "Ada") (of_ascii "Lovelace") (of_ascii "a@b.com")
       (of_ascii "08012345678") (of_ascii pw) (of_ascii confirm))
    false "" "" "".

End Register.

(** ** The owner dashboard's loaders ([app/owner/dashboard/page.tsx]) *)

Module Dashboard.

#[local] Set Warnings "-inexact-float".

(** [x || d] for an optional number: [undefined], zero and NaN give [d]. *)
Definition number_or (x : option float) (d : float) : float :=
  match x with
  | Some v => if Js.truthy (Js.Num v) then v else d
  | None => d
  end.

(** An array length as the number it is. *)
Definition number_of_length (n : nat) : float :=
  PrimFloat.of_uint63 (Uint63.of_Z (Z.of_nat n)).

(** An order as the dashboard reads it: the record above and the creation
    stamp the store puts on every document. *)
Module Entry.
Record t : Type := mk
  { order : Order.t;
    createdAt : string }.
End Entry.

Definition status_of (e : Entry.t) : OrderStatus := Order.status (Entry.order e).
Definition amount_of (e : Entry.t) : float := Order.finalAmount (Entry.order e).

(** The answer of a store query as the page reads it: [success], the rows
    in [data], and an [error] message. *)
Module Listing.
Record t (A : Type) : Type := mk
  { success : bool;
    data : option (list A);
    error : option string }.
Arguments mk {A} success data error.
Arguments success {A} t.
Arguments data {A} t.
Arguments error {A} t.
End Listing.

(** A staff record, restricted to the fields the loader reads. *)
Module AdminUser.
Record t : Type := mk
  { id : string;
    totalOrdersHandled : option float;
    averageRating : option float;
    isActive : bool }.
End AdminUser.

Inductive Activity : Type := active | inactive.

Definition Activity_eqb (a b : Activity) : bool :=
  match a, b with
  | active, active | inactive, inactive => true
  | _, _ => false
  end.

Module StaffWithStats.
Record t : Type := mk
  { member : AdminUser.t;
    ordersHandled : float;
    performance : float;
    status : Activity }.
End StaffWithStats.

(** A customer record, restricted to the field the loader reads. *)
Module User.
Record t : Type := mk { id : string }.
End User.

Module CustomerWithStats.
Record t : Type := mk
  { customer : User.t;
    totalOrders : nat;
    totalSpent : float;
    lastOrderDate : option string;
    status : Activity }.
End CustomerWithStats.

Module Service.
Record t : Type := mk
  { id : string;
    isActive : bool }.
End Service.

(** The [stats] state (lines 41-52). *)
Module Stats.
Record t : Type := mk
  { totalRevenue : float;
    monthlyRevenue : float;
    totalOrders : nat;
    activeCustomers : nat;
    pendingOrders : nat;
    completedOrders : nat;
    averageOrderValue : float;
    customerSatisfaction : float;
    totalStaff : nat;
    activeStaff : nat }.
End Stats.

(** The state the loaders write. *)
Record State : Type := mkState
  { isLoading : bool;
    customers : list CustomerWithStats.t;
    staff : list StaffWithStats.t;
    recentOrders : list Entry.t;
    services : list Service.t;
    stats : Stats.t }.

Definition setIsLoading (b : bool) (s : State) : State :=
  mkState b (customers s) (staff s) (recentOrders s) (services s) (stats s).
Definition setCustomers (c : list CustomerWithStats.t) (s : State) : State :=
  mkState (isLoading s) c (staff s) (recentOrders s) (services s) (stats s).
Definition setStaff (l : list StaffWithStats.t) (s : State) : State :=
  mkState (isLoading s) (customers s) l (recentOrders s) (services s) (stats s).
Definition setRecentOrders (l : list Entry.t) (s : State) : State :=
  mkState (isLoading s) (customers s) (staff s) l (services s) (stats s).
Definition setServices (l : list Service.t) (s : State) : State :=
  mkState (isLoading s) (customers s) (staff s) (recentOrders s) l (stats s).
Definition setStats (f : Stats.t -> Stats.t) (s : State) : State :=
  mkState (isLoading s) (customers s) (staff s) (recentOrders s) (services s)
    (f (stats s)).

Definition initial : State :=
  mkState true [] [] [] []
    (Stats.mk 0%float 0%float 0 0 0 0 0%float 4.8%float 0 0).

(** What the page gets from outside: the store's queries, the clock (the
    time value of "thirty days ago"; it does not advance during a load) and
    [new Date(s).getTime()], with [None] for the NaN of a date that does not
    parse. *)
Record Env : Type := mkEnv
  { getAllUsers : Z -> Outcome (Listing.t User.t);
    getOrdersByCustomer : string -> Outcome (Listing.t Entry.t);
    getAllAdminUsers : Outcome (Listing.t AdminUser.t);
    getOrdersByStatus : OrderStatus -> Z -> Outcome (Listing.t Entry.t);
    getActiveServices : Outcome (Listing.t Service.t);
    getTime : string -> option Z;
    thirtyDaysAgo : Z }.

Inductive Notice : Type :=
| ToastError (message : string).

(** [(a, b) => new Date(b.$createdAt).getTime() - new Date(a.$createdAt).getTime()];
    [sort] reads a NaN as 0. *)
Definition newest_first (env : Env) (a b : Entry.t) : Z :=
  match getTime env (Entry.createdAt b), getTime env (Entry.createdAt a) with
  | Some tb, Some ta => tb - ta
  | _, _ => 0
  end.

(** [Array.prototype.sort] is stable; with a consistent comparison (here:
    when every date parses) its result is the one of any stable sort, and
    insertion from the right is one. *)
Fixpoint insert (env : Env) (x : Entry.t) (l : list Entry.t) : list Entry.t :=
  match l with
  | [] => [x]
  | y :: rest =>
      if newest_first env x y <=? 0 then x :: y :: rest
      else y :: insert env x rest
  end.

Definition sort (env : Env) (l : list Entry.t) : list Entry.t :=
  fold_right (insert env) [] l.

(** [list.reduce((sum, order) => sum + order.finalAmount, 0)] *)
Definition total (l : list Entry.t) : float :=
  fold_left (fun sum e => (sum + amount_of e)%float) l 0%float.

Definition has_status (st : OrderStatus) (e : Entry.t) : bool :=
  OrderStatus_eqb (status_of e) st.

(** [new Date(stamp) > thirtyDaysAgo] *)
Definition recent (env : Env) (stamp : string) : bool :=
  match getTime env stamp with
  | Some t => thirtyDaysAgo env <? t
  | None => false
  end.

(** [response.success && response.data]: the rows, when both hold. *)
Definition rows {A} (r : Listing.t A) : option (list A) :=
  if Listing.success r then Listing.data r else None.

(** [Promise.all]: every call has been made; the first rejection rejects. *)
Fixpoint all {A} (l : list (Outcome A)) : Outcome (list A) :=
  match l with
  | [] => Returns []
  | Throws e :: _ => Throws e
  | Returns a :: rest =>
      match all rest with
      | Returns l' => Returns (a :: l')
      | Throws e => Throws e
      end
  end.

(** Lines 269-293. *)
Definition with_stats (member : AdminUser.t) : StaffWithStats.t :=
  {| StaffWithStats.member := member;
     StaffWithStats.ordersHandled :=
       number_or (AdminUser.totalOrdersHandled member) 0%float;
     StaffWithStats.performance :=
       number_or (AdminUser.averageRating member) 4.5%float;
     StaffWithStats.status := if AdminUser.isActive member then active else inactive |}.

Definition is_active_staff (m : StaffWithStats.t) : bool :=
  Activity_eqb (StaffWithStats.status m) active.

Definition loadStaffData (env : Env) (s : State) : State :=
  match getAllAdminUsers env with
  | Throws _ => s
  | Returns staffResponse =>
      match rows staffResponse with
      | Some data =>
          let staffWithStats := map with_stats data in
          let s := setStaff staffWithStats s in
          let activeStaff := List.length (filter is_active_staff staffWithStats) in
          setStats
            (fun prev =>
               Stats.mk (Stats.totalRevenue prev) (Stats.monthlyRevenue prev)
                 (Stats.totalOrders prev) (Stats.activeCustomers prev)
                 (Stats.pendingOrders prev) (Stats.completedOrders prev)
                 (Stats.averageOrderValue prev) (Stats.customerSatisfaction prev)
                 (List.length staffWithStats) activeStaff)
            s
      | None => s
      end
  end.

(** The statuses queried at lines 310-316, in that order. *)
Definition queried : list OrderStatus :=
  [PENDING; PICKED_UP; CONFIRMED; IN_PROGRESS; READY; DELIVERED; CANCELLED].

(** Lines 319-328: the rows of the queries that succeeded, in query order. *)
Definition combine_rows (responses : list (Listing.t Entry.t)) : list Entry.t :=
  flat_map (fun r => match rows r with Some d => d | None => [] end) responses.

(** Lines 390-401: the [catch] branch. *)
Definition orders_fallback (s : State) : State :=
  setStats
    (fun prev =>
       Stats.mk 0%float 0%float 0 (Stats.activeCustomers prev) 0 0 0%float
         (Stats.customerSatisfaction prev) (Stats.totalStaff prev)
         (Stats.activeStaff prev))
    (setRecentOrders [] s).

(** Lines 295-402.  [allOrders.sort] sorts in place, so everything after it
    reads the sorted array. *)
Definition loadOrdersData (env : Env) (s : State) : State :=
  match getOrdersByStatus env PENDING 5 with
  | Throws _ => orders_fallback s
  | Returns _ =>
      match all (map (fun st => getOrdersByStatus env st 100) queried) with
      | Throws _ => orders_fallback s
      | Returns allOrdersResponse =>
          let allOrders := sort env (combine_rows allOrdersResponse) in
          let s := setRecentOrders (firstn 10 allOrders) s in
          let pendingOrders := filter (has_status PENDING) allOrders in
          let deliveredOrders := filter (has_status DELIVERED) allOrders in
          let pendingCount := List.length pendingOrders in
          let completedCount := List.length deliveredOrders in
          let totalOrders := List.length allOrders in
          let totalRevenue := total deliveredOrders in
          let averageOrderValue :=
            if (0 <? totalOrders)%nat
            then (totalRevenue / number_of_length totalOrders)%float
            else 0%float in
          let monthlyRevenue :=
            total (filter (fun e => recent env (Entry.createdAt e)) deliveredOrders) in
          setStats
            (fun prev =>
               Stats.mk totalRevenue monthlyRevenue totalOrders
                 (Stats.activeCustomers prev) pendingCount completedCount
                 averageOrderValue (Stats.customerSatisfaction prev)
                 (Stats.totalStaff prev) (Stats.activeStaff prev))
            s
      end
  end.

(** Lines 404-415. *)
Definition loadServicesData (env : Env) (s : State) : State :=
  match getActiveServices env with
  | Throws _ => s
  | Returns servicesResponse =>
      match rows servicesResponse with
      | Some data => setServices data s
      | None => s
      end
  end.

(** Lines 202-236: the statistics of one customer. *)
Definition customer_stats (env : Env) (customer : User.t)
    (ordersResponse : Listing.t Entry.t) : CustomerWithStats.t :=
  let data := match rows ordersResponse with Some d => d | None => [] end in
  let lastOrderDate :=
    match sort env data with
    | newest :: _ => Some (Entry.createdAt newest)
    | [] => None
    end in
  let isActive :=
    match lastOrderDate with
    | Some stamp => negb (String.eqb stamp "") && recent env stamp
    | None => false
    end in
  {| CustomerWithStats.customer := customer;
     CustomerWithStats.totalOrders := List.length data;
     CustomerWithStats.totalSpent := total data;
     CustomerWithStats.lastOrderDate := lastOrderDate;
     CustomerWithStats.status := if isActive then active else inactive |}.

Definition is_active_customer (c : CustomerWithStats.t) : bool :=
  Activity_eqb (CustomerWithStats.status c) active.

(** Lines 188-267. *)
Definition loadCustomersData (env : Env) (s : State) : State * list Notice :=
  match getAllUsers env 500 with
  | Throws _ => (s, [ToastError "Failed to load customers"])
  | Returns customersResponse =>
      match rows customersResponse with
      | Some customerUsers =>
          match all (map (fun c => getOrdersByCustomer env (User.id c)) customerUsers) with
          | Throws _ => (s, [ToastError "Failed to load customers"])
          | Returns answers =>
              let customersWithStats :=
                map (fun ca => customer_stats env (fst ca) (snd ca))
                  (List.combine customerUsers answers) in
              let s := setCustomers customersWithStats s in
              let activeCustomers :=
                List.length (filter is_active_customer customersWithStats) in
              (setStats
                 (fun prev =>
                    Stats.mk (Stats.totalRevenue prev) (Stats.monthlyRevenue prev)
                      (Stats.totalOrders prev) activeCustomers
                      (Stats.pendingOrders prev) (Stats.completedOrders prev)
                      (Stats.averageOrderValue prev) (Stats.customerSatisfaction prev)
                      (Stats.totalStaff prev) (Stats.activeStaff prev))
                 s, [])
          end
      | None => (s, [ToastError "Failed to load customers data"])
      end
  end.

(** Lines 165-186: the four loaders in turn, each catching its own faults. *)
Definition loadDashboardData (env : Env) (s : State) : State * list Notice :=
  let s := setIsLoading true s in
  let (s, notices) := loadCustomersData env s in
  let s := loadStaffData env s in
  let s := loadOrdersData env s in
  let s := loadServicesData env s in
  (setIsLoading false s, notices).

(** Every stamp of the list parses to a date. *)
Definition dated (env : Env) (l : list Entry.t) : Prop :=
  Forall (fun e => exists t, getTime env (Entry.createdAt e) = Some t /\
                             Entry.createdAt e <> "") l.

(** [a] is at least as new as [b]. *)
Definition not_older (env : Env) (a b : Entry.t) : Prop :=
  exists ta tb,
    getTime env (Entry.createdAt a) = Some ta /\
    getTime env (Entry.createdAt b) = Some tb /\
    tb <= ta.

(** Sample data: stamps are decimal day numbers. *)
Definition day (stamp : string) : option Z :=
  match stamp with
  | "d10" => Some 10 | "d20" => Some 20 | "d30" => Some 30
  | "d40" => Some 40 | "d50" => Some 50
  | _ => None
  end.

Definition entry (st : OrderStatus) (amount : float) (stamp : string) : Entry.t :=
  Entry.mk (Order.mk "C1" st PAY_ON_PICKUP amount) stamp.

Definition listing {A} (l : list A) : Listing.t A := Listing.mk true (Some l) None.
Definition failed {A} : Listing.t A := Listing.mk false None (Some "Server error").

Definition sample_orders (st : OrderStatus) : list Entry.t :=
  match st with
  | PENDING => [entry PENDING 1000%float "d10"; entry PENDING 2000%float "d40"]
  | DELIVERED => [entry DELIVERED 3000%float "d20"; entry DELIVERED 500%float "d50"]
  | READY => [entry READY 700%float "d30"]
  | _ => []
  end.

Definition sample : Env :=
  {| getAllUsers := fun _ => Returns (listing [User.mk "C1"; User.mk "C2"]);
     getOrdersByCustomer := fun c =>
       if String.eqb c "C1"
       then Returns (listing [entry PENDING 1000%float "d10";
                              entry DELIVERED 500%float "d50"])
       else Returns failed;
     getAllAdminUsers :=
       Returns (listing [AdminUser.mk "S1" (Some 12%float) (Some 0%float) true;
                         AdminUser.mk "S2" None None false]);
     getOrdersByStatus := fun st _ => Returns (listing (sample_orders st));
     getActiveServices := Returns (listing [Service.mk "wash" true]);
     getTime := day;
     thirtyDaysAgo := 25 |}.

Definition store_down : Env :=
  {| getAllUsers := fun _ => Throws (Js.Str "fetch failed");
     getOrdersByCustomer := fun _ => Throws (Js.Str "fetch failed");
     getAllAdminUsers := getAllAdminUsers sample;
     getOrdersByStatus := fun st limit =>
       match st with
       | CANCELLED => Throws (Js.Str "fetch failed")
       | _ => getOrdersByStatus sample st limit
       end;
     getActiveServices := getActiveServices sample;
     getTime := day;
     thirtyDaysAgo := 25 |}.

End Dashboard.

(** ** Proof support *)

Ltac run_handler :=
  unfold response, trace, POST, POST_run, POST_try, try_catch, bind, await,
    invoke, console_log, console_error, ret.

Ltac run_spec :=
  unfold classify, classify_order, found_order, resolved_customer,
    has_checkout_url, authorized, present.

(** Case analysis on a scrutinee that is itself free of case analyses: the
    answers of the collaborators, not the handler's intermediate pairs. *)
Ltac case_step :=
  match goal with
  | |- context [match ?x with _ => _ end] =>
      lazymatch x with
      | context [match _ with _ => _ end] => fail
      | _ => destruct x eqn:?
      end
  end.

Ltac pair_eqs :=
  repeat match goal with
         | H : (_, _) = (_, _) |- _ => inversion H; clear H; subst
         | H : Returns _ = Returns _ |- _ => inversion H; clear H; subst
         | H : Some _ = Some _ |- _ => inversion H; clear H; subst
         end.

Ltac all_cases :=
  repeat (case_step; simpl in *; try discriminate; pair_eqs; simpl in * ).

(** Unfolding the hypotheses on the collaborators' answers and feeding them
    to the handler. *)
Ltac open_answers :=
  repeat match goal with
         | H : eligible _ _ _ _ |- _ => destruct H as (? & ? & ?)
         | H : own_order _ _ _ _ |- _ => destruct H as (? & ? & ?)
         | H : well_formed _ _ _ |- _ => destruct H as (? & ? & ?)
         | H : receives _ _ _ |- _ => destruct H as (? & ? & ?)
         | H : stores _ _ _ |- _ => destruct H as (? & ? & ? & ?)
         | H : not_stored _ _ _ |- _ => destruct H as (? & ?)
         | H : resolves _ _ _ |- _ => destruct H as (? & ? & ? & ?)
         | H : unresolved _ _ |- _ => destruct H as (? & ? & ?)
         | H : owned_by _ _ |- _ => red in H; subst
         end.

Ltac feed :=
  simpl in *;
  repeat (match goal with
          | H : ?l = _ |- context [?l] => rewrite H
          end; simpl);
  rewrite ?String.eqb_refl; simpl.

(** Discharging the hypotheses at a concrete world. *)
Ltac by_evaluation :=
  repeat match goal with
         | |- eligible _ _ _ _ => split; [|split]
         | |- own_order _ _ _ _ => split; [|split]
         | |- well_formed _ _ _ => split; [|split]
         | |- receives _ _ _ => eexists; split; reflexivity
         | |- stores _ _ _ => eexists; split; [|split]; reflexivity
         | |- resolves _ _ _ => eexists; split; [|split]; reflexivity
         | |- owned_by _ _ => reflexivity
         | |- _ = _ => reflexivity
         end.

(** ** Elementary facts *)

Lemma strict_eq_string_true (s : string) (v : Js.value) :
  Js.strict_eq_string s v = true <-> v = Js.Str s.
Proof.
  split.
  - destruct v; simpl; try discriminate.
    intros H. apply String.eqb_eq in H. now subst.
  - intros ->. simpl. apply String.eqb_refl.
Qed.

Lemma differs_strict (order : Order.t) (customerId : Js.value) :
  ~ owned_by order customerId ->
  Js.strict_eq_string (Order.customerId order) customerId = false.
Proof.
  intros H.
  destruct (Js.strict_eq_string (Order.customerId order) customerId) eqn:E;
    [|reflexivity].
  apply strict_eq_string_true in E. contradiction.
Qed.

Lemma OrderStatus_eqb_eq (a b : OrderStatus) :
  OrderStatus_eqb a b = true <-> a = b.
Proof. destruct a, b; simpl; split; congruence. Qed.

Lemma PaymentMethod_eqb_eq (a b : PaymentMethod) :
  PaymentMethod_eqb a b = true <-> a = b.
Proof. destruct a, b; simpl; split; congruence. Qed.

Lemma not_ready_eqb (s : OrderStatus) :
  s <> READY -> OrderStatus_eqb s READY = false.
Proof. destruct s; simpl; congruence. Qed.

Lemma not_pickup_eqb (m : PaymentMethod) :
  m <> PAY_ON_PICKUP -> PaymentMethod_eqb m PAY_ON_PICKUP = false.
Proof. destruct m; simpl; congruence. Qed.

Lemma falsy_ids (orderId customerId : Js.value) :
  Js.truthy orderId = false \/ Js.truthy customerId = false ->
  negb (Js.truthy orderId) || negb (Js.truthy customerId) = true.
Proof. intros [-> | ->]; simpl; [reflexivity | apply orb_true_r]. Qed.

Lemma or_else_empty_default (o : option string) :
  Js.or_else o "" = match o with Some s => s | None => "" end.
Proof.
  destruct o as [s|]; simpl; [|reflexivity].
  destruct (String.eqb_spec s ""); congruence.
Qed.

(** What is missing or empty is falsy; so are [null], [false], zero and NaN. *)
Example falsy_values :
  map Js.truthy
    [Js.Undefined; Js.Str ""; Js.Null; Js.Bool false; Js.Num 0%float;
     Js.Num (-0)%float; Js.Num (0 / 0)%float]
  = [false; false; false; false; false; false; false].
Proof. reflexivity. Qed.

Example truthy_values :
  map Js.truthy [Js.Str "O1"; Js.Num 7%float; Js.Obj []; Js.Arr []; Js.Bool true]
  = [true; true; true; true; true].
Proof. reflexivity. Qed.

(** The handler's test on the payment result is the specification's
    "success with a checkout URL present". *)
Lemma authorized_has_checkout_url (r : PaymentResult.t) :
  has_checkout_url r = true <-> exists d, authorized r = Some d.
Proof.
  unfold has_checkout_url, authorized.
  destruct (PaymentResult.success r); simpl.
  - destruct (PaymentResult.data r) as [d|]; simpl.
    + destruct (PaymentResult.authorizationUrl d) as [url|]; simpl.
      * destruct (String.eqb url ""); simpl; split; intros H;
          try discriminate; eauto; now destruct H.
      * split; [discriminate | now intros []].
    + split; [discriminate | now intros []].
  - split; [discriminate | now intros []].
Qed.

Lemma authorized_payload (r : PaymentResult.t) (d : PaymentResult.payload) :
  authorized r = Some d -> PaymentResult.data r = Some d.
Proof.
  unfold authorized.
  destruct (PaymentResult.success r); [|discriminate].
  destruct (PaymentResult.data r) as [d'|]; [|discriminate].
  destruct (Js.truthy _); [|discriminate].
  congruence.
Qed.

Lemma no_checkout_url_unauthorized (r : PaymentResult.t) :
  has_checkout_url r = false -> authorized r = None.
Proof.
  intros H. destruct (authorized r) as [d|] eqn:E; [|reflexivity].
  assert (has_checkout_url r = true) by (apply authorized_has_checkout_url; eauto).
  congruence.
Qed.

(** Without a checkout URL: failure reported, no payload, no URL in it, or
    an empty one. *)
Lemma no_checkout_url_cases (r : PaymentResult.t) :
  has_checkout_url r = false <->
  PaymentResult.success r = false \/
  PaymentResult.data r = None \/
  exists d, PaymentResult.data r = Some d /\
            (PaymentResult.authorizationUrl d = None \/
             PaymentResult.authorizationUrl d = Some "").
Proof.
  unfold has_checkout_url.
  destruct (PaymentResult.success r); simpl.
  - destruct (PaymentResult.data r) as [d|]; simpl.
    + destruct (PaymentResult.authorizationUrl d) as [url|] eqn:E; simpl.
      * destruct (String.eqb_spec url ""); simpl; split; intros H.
        -- subst. right; right. exists d. auto.
        -- reflexivity.
        -- discriminate.
        -- destruct H as [H | [H | (d' & Hd & [H | H])]]; try discriminate.
           ++ inversion Hd; subst. congruence.
           ++ inversion Hd; subst. congruence.
      * split; [|reflexivity]. intros _. right; right. exists d. auto.
    + split; auto.
  - split; auto.
Qed.

(** ** The paths through the handler *)

Lemma POST_malformed (w : World) (orderId customerId : Js.value) :
  receives w orderId customerId ->
  Js.truthy orderId = false \/ Js.truthy customerId = false ->
  POST w = ([Log "Ready order payment request:"],
            json (failure "Order ID and Customer ID are required") 400).
Proof.
  intros Hrq Hmiss. apply falsy_ids in Hmiss.
  open_answers. run_handler. feed. reflexivity.
Qed.

Lemma POST_not_found (w : World) (orderId customerId : Js.value)
    (r : OrderResponse.t) :
  well_formed w orderId customerId ->
  not_stored w orderId r ->
  POST w = ((lookup_trace orderId ++ [Log "Order not found or error:"])%list,
            json (failure (Js.or_else (OrderResponse.error r) "Order not found")) 404).
Proof.
  intros Hwf Hno. open_answers. run_handler.
  match goal with H : _ \/ _ |- _ => destruct H end; feed; [reflexivity|].
  destruct (OrderResponse.success r); reflexivity.
Qed.

Lemma POST_unauthorized (w : World) (orderId customerId : Js.value)
    (order : Order.t) :
  well_formed w orderId customerId ->
  stores w orderId order ->
  ~ owned_by order customerId ->
  POST w = (lookup_trace orderId,
            json (failure "Unauthorized access to order") 403).
Proof.
  intros Hwf Hst Hdiff. apply differs_strict in Hdiff.
  open_answers. run_handler. feed. reflexivity.
Qed.

Lemma POST_not_ready (w : World) (orderId customerId : Js.value)
    (order : Order.t) :
  own_order w orderId customerId order ->
  Order.status order <> READY ->
  POST w = (lookup_trace orderId,
            json (failure "Order is not ready for pickup") 400).
Proof.
  intros Hown Hs. apply not_ready_eqb in Hs.
  open_answers. run_handler. feed. reflexivity.
Qed.

Lemma POST_wrong_method (w : World) (orderId customerId : Js.value)
    (order : Order.t) :
  own_order w orderId customerId order ->
  Order.status order = READY ->
  Order.paymentMethod order <> PAY_ON_PICKUP ->
  POST w = (lookup_trace orderId,
            json (failure "Order is not set for pay on pickup") 400).
Proof.
  intros Hown Hs Hm. apply not_pickup_eqb in Hm.
  open_answers. run_handler. feed. reflexivity.
Qed.

Lemma POST_customer_not_found (w : World) (orderId customerId : Js.value)
    (order : Order.t) :
  eligible w orderId customerId order ->
  unresolved w customerId ->
  POST w = ((lookup_trace orderId ++ [Invoke (GetUserProfile customerId)])%list,
            json (failure "Customer not found") 404).
Proof.
  intros Hel Hun. open_answers. run_handler.
  match goal with H : _ \/ _ |- _ => destruct H end; feed; [reflexivity|].
  destruct (ProfileResponse.success _); reflexivity.
Qed.

Lemma POST_payment_answered (w : World) (orderId customerId : Js.value)
    (order : Order.t) (customer : Customer.t) (pr : PaymentResult.t) :
  eligible w orderId customerId order ->
  resolves w customerId customer ->
  initializePayment w (paymentData w orderId customerId order customer) = Returns pr ->
  POST w =
  ((lookup_trace orderId ++
    [Invoke (GetUserProfile customerId);
     Invoke (InitializePayment (paymentData w orderId customerId order customer))])%list,
   match authorized pr with
   | Some d => json (checkout d) 200
   | None =>
       json (failure (Js.or_else (PaymentResult.error pr)
                        "Failed to initialize payment")) 500
   end).
Proof.
  intros Hel Hres Hpay. open_answers. run_handler. feed.
  destruct (authorized pr); reflexivity.
Qed.

(** The handler always comes back with a response: nothing is thrown past
    the [catch]. *)
Lemma POST_run_returns (w : World) :
  POST_run w = (trace w, Returns (response w)).
Proof.
  destruct w as [rq go gu ip url].
  run_handler. simpl.
  all_cases; reflexivity.
Qed.

(** ** The scenario of the specification, run *)

Example scenario_response :
  response scenario =
  json (Js.Obj [("success", Js.Bool true);
                ("data", Js.Obj [("authorizationUrl", Js.Str "https://pay.example/x");
                                 ("reference", Js.Str "REF123")])]) 200.
Proof. reflexivity. Qed.

Example scenario_calls :
  calls (trace scenario) =
  [GetOrderById (Js.Str "O1"); GetUserProfile (Js.Str "C1");
   InitializePayment
     {| PaymentData.email := "a@b.com";
        PaymentData.amount := 500000%float;
        PaymentData.currency := "NGN";
        PaymentData.metadata :=
          {| Metadata.orderId := Js.Str "O1";
             Metadata.customerId := Js.Str "C1";
             Metadata.customerName := "Ada Lovelace";
             Metadata.phoneNumber := "08012345678";
             Metadata.paymentType := "pay_on_pickup" |};
        PaymentData.callback_url := "https://app.example/payment/callback" |}].
Proof. reflexivity. Qed.

Example unparsable_response :
  POST unparsable =
  ([LogError "Ready order payment error:"],
   json (failure "Internal server error") 500).
Proof. reflexivity. Qed.

Example null_body_response :
  response (world_of Js.Null (found order_O1) (resolved ada) paid_REF123) =
  json (failure "Internal server error") 500.
Proof. reflexivity. Qed.

(** ** Successful initiation *)

(** C1: for a well-formed request on a ready, pay-on-pickup order that the
    store returns, that belongs to the requesting customer and whose customer
    profile resolves, a payment initiator answering success with a checkout
    URL makes the handler answer success with exactly that URL and reference;
    the one initiation request it sent carries the order's [finalAmount] as
    amount and "NGN" as currency. *)
Theorem initiate_ready_order_payment_success
    (w : World) (orderId customerId : Js.value) (order : Order.t)
    (customer : Customer.t) (pr : PaymentResult.t)
    (url : string) (ref : option string) :
  eligible w orderId customerId order ->
  resolves w customerId customer ->
  initializePayment w (paymentData w orderId customerId order customer) = Returns pr ->
  PaymentResult.success pr = true ->
  PaymentResult.data pr = Some (PaymentResult.mkPayload (Some url) ref) ->
  url <> "" ->
  let sent := paymentData w orderId customerId order customer in
  response w =
    json (Js.Obj [("success", Js.Bool true);
                  ("data", Js.Obj [("authorizationUrl", Js.Str url);
                                   ("reference", Js.of_option ref)])]) 200 /\
  calls (trace w) =
    [GetOrderById orderId; GetUserProfile customerId; InitializePayment sent] /\
  PaymentData.amount sent = Order.finalAmount order /\
  PaymentData.currency sent = "NGN".
Proof.
  intros Hel Hres Hpay Hok Hdata Hurl sent.
  apply String.eqb_neq in Hurl.
  unfold response, trace.
  rewrite (POST_payment_answered w orderId customerId order customer pr Hel Hres Hpay).
  unfold authorized. rewrite Hok, Hdata. simpl. rewrite Hurl. simpl.
  repeat split.
Qed.

Lemma initiate_ready_order_payment_success_witness :
  response scenario =
    json (Js.Obj [("success", Js.Bool true);
                  ("data", Js.Obj [("authorizationUrl", Js.Str "https://pay.example/x");
                                   ("reference", Js.Str "REF123")])]) 200 /\
  calls (trace scenario) =
    [GetOrderById (Js.Str "O1"); GetUserProfile (Js.Str "C1");
     InitializePayment (paymentData scenario (Js.Str "O1") (Js.Str "C1") order_O1 ada)] /\
  PaymentData.amount (paymentData scenario (Js.Str "O1") (Js.Str "C1") order_O1 ada)
    = 500000%float /\
  PaymentData.currency (paymentData scenario (Js.Str "O1") (Js.Str "C1") order_O1 ada)
    = "NGN".
Proof.
  apply (initiate_ready_order_payment_success scenario (Js.Str "O1") (Js.Str "C1")
           order_O1 ada paid_REF123 "https://pay.example/x" (Some "REF123"));
    try discriminate; by_evaluation.
Defined.

(** ** Validation failures *)

(** C7, as the code has it: whenever the request body parses and can be
    destructured (any JSON value but [null]) and yields an [orderId] or a
    [customerId] that is missing ([undefined]) or empty (anything falsy, the
    empty string included), the answer is the malformed-request failure with
    code 400, whatever the collaborators would have said, and none of them
    is called. *)
Theorem missing_identifier_is_malformed
    (w : World) (orderId customerId : Js.value) :
  receives w orderId customerId ->
  Js.truthy orderId = false \/ Js.truthy customerId = false ->
  response w = json (failure "Order ID and Customer ID are required") 400 /\
  classify w = MalformedRequest /\
  calls (trace w) = [].
Proof.
  intros Hrq Hmiss. unfold response, trace.
  rewrite (POST_malformed w orderId customerId Hrq Hmiss).
  apply falsy_ids in Hmiss.
  open_answers. run_spec. feed. repeat split.
Qed.

Lemma missing_identifier_is_malformed_witness :
  response (world_of no_customer_request (found order_O1) (resolved ada) paid_REF123)
    = json (failure "Order ID and Customer ID are required") 400 /\
  classify (world_of no_customer_request (found order_O1) (resolved ada) paid_REF123)
    = MalformedRequest /\
  calls (trace (world_of no_customer_request (found order_O1) (resolved ada) paid_REF123))
    = [].
Proof.
  apply (missing_identifier_is_malformed
           (world_of no_customer_request (found order_O1) (resolved ada) paid_REF123)
           (Js.Str "O1") Js.Undefined).
  - by_evaluation.
  - right. reflexivity.
Defined.

(** C7, as stated, fails: a body that is the JSON text [null], or that is
    not JSON at all, carries neither identifier, yet the handler answers 500
    "Internal server error" (the destructuring, or [request.json()] itself,
    throws inside the [try]), not the malformed-request failure. *)
Lemma missing_identifiers_in_null_body_are_a_fault :
  identifier_present null_body "orderId" = false /\
  identifier_present null_body "customerId" = false /\
  response null_body = json (failure "Internal server error") 500 /\
  response null_body <> json (failure "Order ID and Customer ID are required") 400 /\
  classify null_body <> MalformedRequest /\
  identifier_present unparsable "orderId" = false /\
  response unparsable = json (failure "Internal server error") 500 /\
  response unparsable <> json (failure "Order ID and Customer ID are required") 400.
Proof. repeat split; discriminate. Qed.

(** C2: for a well-formed request whose order the store returns, an owning
    customer different from the supplied [customerId] gives the unauthorized
    failure (403) whatever the order's status, payment method and amount:
    ownership is tested first, and nothing is called after the lookup. *)
Theorem foreign_order_is_unauthorized
    (w : World) (orderId customerId : Js.value) (order : Order.t) :
  well_formed w orderId customerId ->
  stores w orderId order ->
  ~ owned_by order customerId ->
  response w = json (failure "Unauthorized access to order") 403 /\
  classify w = Unauthorized /\
  calls (trace w) = [GetOrderById orderId].
Proof.
  intros Hwf Hst Hdiff. unfold response, trace.
  rewrite (POST_unauthorized w orderId customerId order Hwf Hst Hdiff).
  apply differs_strict in Hdiff.
  open_answers. run_spec. feed. repeat split.
Qed.

Lemma foreign_order_is_unauthorized_witness :
  response (world_of (request_by "C2") (found order_O1) (resolved ada) paid_REF123)
    = json (failure "Unauthorized access to order") 403 /\
  classify (world_of (request_by "C2") (found order_O1) (resolved ada) paid_REF123)
    = Unauthorized /\
  calls (trace (world_of (request_by "C2") (found order_O1) (resolved ada) paid_REF123))
    = [GetOrderById (Js.Str "O1")].
Proof.
  apply (foreign_order_is_unauthorized
           (world_of (request_by "C2") (found order_O1) (resolved ada) paid_REF123)
           (Js.Str "O1") (Js.Str "C2") order_O1).
  - by_evaluation.
  - by_evaluation.
  - unfold owned_by. simpl. discriminate.
Defined.

(** C6: for a well-formed request on an order of the requesting customer, a
    status other than [READY] gives the invalid-state failure "not ready"
    (400) whatever the payment method, and status [READY] with a method other
    than [PAY_ON_PICKUP] gives the invalid-state failure "not set for pay on
    pickup" (400); the status is tested before the method. *)
Theorem ineligible_order_is_invalid_state
    (w : World) (orderId customerId : Js.value) (order : Order.t) :
  own_order w orderId customerId order ->
  (Order.status order <> READY ->
   response w = json (failure "Order is not ready for pickup") 400 /\
   classify w = InvalidState) /\
  (Order.status order = READY ->
   Order.paymentMethod order <> PAY_ON_PICKUP ->
   response w = json (failure "Order is not set for pay on pickup") 400 /\
   classify w = InvalidState).
Proof.
  intros Hown. split.
  - intros Hs. unfold response.
    rewrite (POST_not_ready w orderId customerId order Hown Hs).
    apply not_ready_eqb in Hs.
    open_answers. run_spec. feed. repeat split.
  - intros Hs Hm. unfold response.
    rewrite (POST_wrong_method w orderId customerId order Hown Hs Hm).
    apply not_pickup_eqb in Hm.
    open_answers. run_spec. feed. repeat split.
Qed.

Lemma ineligible_order_is_invalid_state_witness :
  response (world_of request_O1 (found (order_with PENDING PAY_ONLINE))
              (resolved ada) paid_REF123)
    = json (failure "Order is not ready for pickup") 400 /\
  response (world_of request_O1 (found (order_with READY PAY_ONLINE))
              (resolved ada) paid_REF123)
    = json (failure "Order is not set for pay on pickup") 400.
Proof.
  split.
  - apply (ineligible_order_is_invalid_state
             (world_of request_O1 (found (order_with PENDING PAY_ONLINE))
                (resolved ada) paid_REF123)
             (Js.Str "O1") (Js.Str "C1") (order_with PENDING PAY_ONLINE)).
    + by_evaluation.
    + simpl. discriminate.
  - apply (ineligible_order_is_invalid_state
             (world_of request_O1 (found (order_with READY PAY_ONLINE))
                (resolved ada) paid_REF123)
             (Js.Str "O1") (Js.Str "C1") (order_with READY PAY_ONLINE)).
    + by_evaluation.
    + reflexivity.
    + simpl. discriminate.
Defined.

(** C8: for a well-formed request on a ready, pay-on-pickup order of the
    requesting customer, a profile lookup that reports failure or carries no
    data gives the customer-not-found failure, which the specification files
    under dependency-not-found and not under (order) not-found; the payment
    initiator is not called. *)
Theorem unresolved_customer_is_dependency_not_found
    (w : World) (orderId customerId : Js.value) (order : Order.t) :
  eligible w orderId customerId order ->
  unresolved w customerId ->
  response w = json (failure "Customer not found") 404 /\
  classify w = DependencyNotFound /\
  classify w <> NotFound /\
  calls (trace w) = [GetOrderById orderId; GetUserProfile customerId] /\
  payment_calls w = 0%nat.
Proof.
  intros Hel Hun.
  assert (Hc : classify w = DependencyNotFound).
  { open_answers. run_spec.
    match goal with H : _ \/ _ |- _ => destruct H end; feed; [reflexivity|].
    destruct (ProfileResponse.success _); reflexivity. }
  unfold payment_calls, response, trace.
  rewrite (POST_customer_not_found w orderId customerId order Hel Hun), Hc.
  repeat split. discriminate.
Qed.

Lemma unresolved_customer_is_dependency_not_found_witness :
  response (world_of request_O1 (found order_O1) unknown_customer paid_REF123)
    = json (failure "Customer not found") 404 /\
  payment_calls (world_of request_O1 (found order_O1) unknown_customer paid_REF123)
    = 0%nat.
Proof.
  destruct (unresolved_customer_is_dependency_not_found
              (world_of request_O1 (found order_O1) unknown_customer paid_REF123)
              (Js.Str "O1") (Js.Str "C1") order_O1)
    as (Hresp & _ & _ & _ & Hnone).
  - by_evaluation.
  - exists unknown_customer. split; [reflexivity | left; reflexivity].
  - split; assumption.
Defined.

(** C10: an unresolved customer profile is answered with status 404, the
    very code of a missing order; the two answers have the same shape and
    differ only in the message, "Customer not found" against the store's
    message or "Order not found". *)
Theorem customer_not_found_shares_404
    (w1 w2 : World) (o1 c1 o2 c2 : Js.value)
    (r : OrderResponse.t) (order : Order.t) :
  well_formed w1 o1 c1 ->
  not_stored w1 o1 r ->
  eligible w2 o2 c2 order ->
  unresolved w2 c2 ->
  response w1 =
    json (failure (Js.or_else (OrderResponse.error r) "Order not found")) 404 /\
  response w2 = json (failure "Customer not found") 404 /\
  Response.status (response w1) = Response.status (response w2).
Proof.
  intros Hwf Hno Hel Hun. unfold response.
  rewrite (POST_not_found w1 o1 c1 r Hwf Hno).
  rewrite (POST_customer_not_found w2 o2 c2 order Hel Hun).
  repeat split.
Qed.

Lemma customer_not_found_shares_404_witness :
  response (world_of request_O1 no_such_order (resolved ada) paid_REF123)
    = json (failure "Document not found") 404 /\
  response (world_of request_O1 (found order_O1) unknown_customer paid_REF123)
    = json (failure "Customer not found") 404 /\
  Response.status (response (world_of request_O1 no_such_order (resolved ada) paid_REF123))
    = Response.status
        (response (world_of request_O1 (found order_O1) unknown_customer paid_REF123)).
Proof.
  apply (customer_not_found_shares_404
           (world_of request_O1 no_such_order (resolved ada) paid_REF123)
           (world_of request_O1 (found order_O1) unknown_customer paid_REF123)
           (Js.Str "O1") (Js.Str "C1") (Js.Str "O1") (Js.Str "C1")
           no_such_order order_O1).
  - by_evaluation.
  - split; [reflexivity | left; reflexivity].
  - by_evaluation.
  - exists unknown_customer. split; [reflexivity | left; reflexivity].
Defined.

(** ** The payment request *)

(** C9: the phone put in the payment metadata is the profile's phone when
    that is a bare string, the [number] of a structured phone, and the empty
    string when there is neither (no phone, or a structured one without a
    number). *)
Theorem metadata_phone_normalized
    (w : World) (orderId customerId : Js.value) (order : Order.t)
    (customer : Customer.t) :
  Metadata.phoneNumber
    (PaymentData.metadata (paymentData w orderId customerId order customer)) =
  match Customer.phone customer with
  | PlainPhone s => s
  | StructuredPhone (Some number) => number
  | StructuredPhone None => ""
  | NoPhone => ""
  end.
Proof.
  simpl. destruct (Customer.phone customer) as [|s|number]; simpl;
    try reflexivity.
  apply or_else_empty_default.
Qed.

Example metadata_phone_of_the_specification :
  map (fun p => Metadata.phoneNumber
                  (PaymentData.metadata
                     (paymentData scenario (Js.Str "O1") (Js.Str "C1") order_O1
                        (customer_with p))))
    [PlainPhone "08012345678"; StructuredPhone (Some "08012345678"); NoPhone]
  = ["08012345678"; "08012345678"; ""].
Proof. reflexivity. Qed.

(** ** Payment failures *)

(** C5, as the code has it: once the payment step is reached and the
    initiator has answered, the handler reports payment failure (500, with
    the initiator's message when it has one and "Failed to initialize payment"
    otherwise) exactly when the answer is a failure or a success without a
    checkout URL (no payload, no URL in it, or an empty one); an answer with a
    checkout URL is passed on as success, with or without a reference. *)
Theorem payment_failure_iff_no_checkout_url
    (w : World) (orderId customerId : Js.value) (order : Order.t)
    (customer : Customer.t) (pr : PaymentResult.t) :
  eligible w orderId customerId order ->
  resolves w customerId customer ->
  initializePayment w (paymentData w orderId customerId order customer) = Returns pr ->
  (has_checkout_url pr = false ->
   response w =
     json (failure (Js.or_else (PaymentResult.error pr)
                      "Failed to initialize payment")) 500 /\
   classify w = PaymentFailure) /\
  (has_checkout_url pr = true ->
   exists d, PaymentResult.data pr = Some d /\
             response w = json (checkout d) 200 /\
             classify w = Success).
Proof.
  intros Hel Hres Hpay.
  assert (Hc : classify w = if has_checkout_url pr then Success else PaymentFailure).
  { open_answers. unfold classify, classify_order, found_order,
      resolved_customer, present. feed. reflexivity. }
  unfold response.
  rewrite (POST_payment_answered w orderId customerId order customer pr Hel Hres Hpay).
  rewrite Hc. split; intros Hurl; rewrite Hurl.
  - rewrite (no_checkout_url_unauthorized pr Hurl). split; reflexivity.
  - apply authorized_has_checkout_url in Hurl. destruct Hurl as [d Hd].
    exists d. rewrite Hd. repeat split.
    apply authorized_payload. exact Hd.
Qed.

Lemma payment_failure_iff_no_checkout_url_witness :
  response (world_of request_O1 (found order_O1) (resolved ada) paid_without_url)
    = json (failure "Failed to initialize payment") 500 /\
  response (world_of request_O1 (found order_O1) (resolved ada) declined)
    = json (failure "Card declined") 500.
Proof.
  split.
  - apply (payment_failure_iff_no_checkout_url
             (world_of request_O1 (found order_O1) (resolved ada) paid_without_url)
             (Js.Str "O1") (Js.Str "C1") order_O1 ada paid_without_url);
      by_evaluation.
  - apply (payment_failure_iff_no_checkout_url
             (world_of request_O1 (found order_O1) (resolved ada) declined)
             (Js.Str "O1") (Js.Str "C1") order_O1 ada declined);
      by_evaluation.
Defined.

(** C5, as stated, fails: a success answer that has the checkout URL but
    lacks the reference is an incomplete payload, and the handler answers
    success (200, [reference] undefined), not payment failure. *)
Lemma incomplete_payload_without_reference_succeeds :
  PaymentResult.success paid_without_reference = true /\
  complete_payload paid_without_reference = false /\
  response (world_of request_O1 (found order_O1) (resolved ada) paid_without_reference)
    = json (Js.Obj [("success", Js.Bool true);
                    ("data", Js.Obj [("authorizationUrl", Js.Str "https://pay.example/x");
                                     ("reference", Js.Undefined)])]) 200 /\
  Response.status
    (response (world_of request_O1 (found order_O1) (resolved ada) paid_without_reference))
    <> transport_code PaymentFailure.
Proof. repeat split. discriminate. Qed.

(** ** Every invocation *)

(** C3: every invocation ends in a response, nothing is thrown past the
    handler; the response is tagged with a [success] flag and carries the
    transport code of its category (malformed 400, not found 404,
    unauthorized 403, invalid state 400, payment failure and unexpected fault
    500); after a fault the message is the fixed "Internal server error",
    whatever was thrown. *)
Theorem every_invocation_is_answered (w : World) :
  POST_run w = (trace w, Returns (response w)) /\
  Response.status (response w) = transport_code (classify w) /\
  (exists rest,
     Response.body (response w) =
     Js.Obj (("success", Js.Bool (is_success (classify w))) :: rest)) /\
  (classify w = UnexpectedFault ->
   response w = json (failure "Internal server error") 500).
Proof.
  split; [apply POST_run_returns|].
  destruct w as [rq go gu ip url].
  run_handler. run_spec. simpl.
  all_cases.
  all: repeat split; try reflexivity; try discriminate.
  all: unfold failure, checkout; eexists; reflexivity.
Qed.

Lemma every_invocation_is_answered_witness :
  classify unparsable = UnexpectedFault /\
  response unparsable = json (failure "Internal server error") 500.
Proof.
  split; [reflexivity|].
  apply (every_invocation_is_answered unparsable). reflexivity.
Defined.

(** C4, as the code has it: an invocation calls its collaborators in the
    order lookup, profile, payment, each at most once and stopping at the
    first failed check; it therefore initiates at most one payment - exactly
    one when it answers success or payment failure, none when it answers
    malformed, not found, unauthorized, invalid state or customer not found -
    never repeats a call and never writes to the order store. *)
Theorem at_most_one_payment_initiation (w : World) :
  ordered_reads (calls (trace w)) = true /\
  (payment_calls w <= 1)%nat /\
  payment_calls_allowed (classify w) (payment_calls w) /\
  List.filter is_store_write (calls (trace w)) = [].
Proof.
  unfold payment_calls.
  destruct w as [rq go gu ip url].
  run_handler. run_spec. simpl.
  all_cases.
  all: repeat split; simpl; try reflexivity; try lia.
Qed.

(** C4, as stated, fails: a request without identifiers is answered without
    any payment initiation, not with exactly one. *)
Lemma malformed_request_initiates_no_payment :
  payment_calls (world_of no_customer_request (found order_O1) (resolved ada) paid_REF123)
    = 0%nat /\
  payment_calls (world_of no_customer_request (found order_O1) (resolved ada) paid_REF123)
    <> 1%nat.
Proof. split; [reflexivity | discriminate]. Qed.

(** ** Further behaviour of the handler *)

(** The fault paths: the call that throws is the last one made. *)
Lemma POST_store_fault (w : World) (orderId customerId e : Js.value) :
  well_formed w orderId customerId ->
  getOrderById w orderId = Throws e ->
  POST w =
  ([Log "Ready order payment request:"; Log "Fetching order details for:";
    Invoke (GetOrderById orderId); LogError "Ready order payment error:"],
   json (failure "Internal server error") 500).
Proof.
  intros Hwf Hthrow. open_answers. run_handler. feed. reflexivity.
Qed.

Lemma POST_identity_fault (w : World) (orderId customerId : Js.value)
    (order : Order.t) (e : Js.value) :
  eligible w orderId customerId order ->
  getUserProfile w customerId = Throws e ->
  POST w =
  ((lookup_trace orderId ++
    [Invoke (GetUserProfile customerId); LogError "Ready order payment error:"])%list,
   json (failure "Internal server error") 500).
Proof.
  intros Hel Hthrow. open_answers. run_handler. feed. reflexivity.
Qed.

Lemma POST_initiator_fault (w : World) (orderId customerId : Js.value)
    (order : Order.t) (customer : Customer.t) (e : Js.value) :
  eligible w orderId customerId order ->
  resolves w customerId customer ->
  initializePayment w (paymentData w orderId customerId order customer) = Throws e ->
  POST w =
  ((lookup_trace orderId ++
    [Invoke (GetUserProfile customerId);
     Invoke (InitializePayment (paymentData w orderId customerId order customer));
     LogError "Ready order payment error:"])%list,
   json (failure "Internal server error") 500).
Proof.
  intros Hel Hres Hthrow. open_answers. run_handler. feed. reflexivity.
Qed.

(** X1: a well-formed request whose order lookup reports failure or carries
    no data is answered 404 with the store's error message, or with "Order
    not found" when the store gives none or an empty one; nothing but the
    lookup is called. *)
Theorem order_lookup_failure_is_not_found
    (w : World) (orderId customerId : Js.value) (r : OrderResponse.t) :
  well_formed w orderId customerId ->
  not_stored w orderId r ->
  response w =
    json (failure (Js.or_else (OrderResponse.error r) "Order not found")) 404 /\
  (OrderResponse.error r = None \/ OrderResponse.error r = Some "" ->
   response w = json (failure "Order not found") 404) /\
  classify w = NotFound /\
  calls (trace w) = [GetOrderById orderId].
Proof.
  intros Hwf Hno.
  assert (Hc : classify w = NotFound).
  { open_answers. run_spec.
    match goal with H : _ \/ _ |- _ => destruct H end; feed; [reflexivity|].
    destruct (OrderResponse.success r); reflexivity. }
  unfold response, trace. rewrite (POST_not_found w orderId customerId r Hwf Hno).
  simpl. repeat split; try assumption.
  intros [-> | ->]; reflexivity.
Qed.

Lemma order_lookup_failure_is_not_found_witness :
  response (world_of request_O1 no_such_order (resolved ada) paid_REF123)
    = json (failure "Document not found") 404 /\
  calls (trace (world_of request_O1 no_such_order (resolved ada) paid_REF123))
    = [GetOrderById (Js.Str "O1")].
Proof.
  destruct (order_lookup_failure_is_not_found
              (world_of request_O1 no_such_order (resolved ada) paid_REF123)
              (Js.Str "O1") (Js.Str "C1") no_such_order)
    as (Hresp & _ & _ & Hcalls).
  - by_evaluation.
  - split; [reflexivity | left; reflexivity].
  - split; assumption.
Defined.

(** X2: when the order store or the identity provider throws, the handler
    answers 500 "Internal server error" whatever was thrown, the throwing
    call is the last collaborator call, and no payment is initiated. *)
Theorem lookup_fault_stops_before_payment
    (w : World) (orderId customerId : Js.value) (order : Order.t)
    (e : Js.value) :
  well_formed w orderId customerId ->
  (getOrderById w orderId = Throws e ->
   response w = json (failure "Internal server error") 500 /\
   calls (trace w) = [GetOrderById orderId] /\
   payment_calls w = 0%nat) /\
  (stores w orderId order ->
   owned_by order customerId ->
   Order.status order = READY ->
   Order.paymentMethod order = PAY_ON_PICKUP ->
   getUserProfile w customerId = Throws e ->
   response w = json (failure "Internal server error") 500 /\
   calls (trace w) = [GetOrderById orderId; GetUserProfile customerId] /\
   payment_calls w = 0%nat).
Proof.
  intros Hwf. split.
  - intros Hthrow. unfold payment_calls, response, trace.
    rewrite (POST_store_fault w orderId customerId e Hwf Hthrow).
    repeat split.
  - intros Hst Hown Hs Hm Hthrow.
    assert (Hel : eligible w orderId customerId order).
    { split; [split; [exact Hwf | split; assumption] | split; assumption]. }
    unfold payment_calls, response, trace.
    rewrite (POST_identity_fault w orderId customerId order e Hel Hthrow).
    repeat split.
Qed.

Lemma lookup_fault_stops_before_payment_witness :
  (response failing_store = json (failure "Internal server error") 500 /\
   calls (trace failing_store) = [GetOrderById (Js.Str "O1")]) /\
  (response failing_identity = json (failure "Internal server error") 500 /\
   calls (trace failing_identity) =
     [GetOrderById (Js.Str "O1"); GetUserProfile (Js.Str "C1")]).
Proof.
  split.
  - destruct (lookup_fault_stops_before_payment failing_store
                (Js.Str "O1") (Js.Str "C1") order_O1 network_down)
      as [Hstore _]; [by_evaluation|].
    destruct Hstore as (Hr & Hc & _); [reflexivity|]. split; assumption.
  - destruct (lookup_fault_stops_before_payment failing_identity
                (Js.Str "O1") (Js.Str "C1") order_O1 network_down)
      as [_ Hid]; [by_evaluation|].
    destruct Hid as (Hr & Hc & _); by_evaluation. split; assumption.
Defined.

(** X3: when the payment initiator throws, the handler has made exactly one
    initiation attempt (it does not retry) and answers 500 with the fixed
    "Internal server error", not with the payment-failure message and not
    with anything taken from the exception. *)
Theorem initiator_fault_is_not_retried
    (w : World) (orderId customerId : Js.value) (order : Order.t)
    (customer : Customer.t) (e : Js.value) :
  eligible w orderId customerId order ->
  resolves w customerId customer ->
  initializePayment w (paymentData w orderId customerId order customer) = Throws e ->
  response w = json (failure "Internal server error") 500 /\
  response w <> json (failure "Failed to initialize payment") 500 /\
  calls (trace w) =
    [GetOrderById orderId; GetUserProfile customerId;
     InitializePayment (paymentData w orderId customerId order customer)] /\
  payment_calls w = 1%nat.
Proof.
  intros Hel Hres Hthrow. unfold payment_calls, response, trace.
  rewrite (POST_initiator_fault w orderId customerId order customer e Hel Hres Hthrow).
  repeat split. discriminate.
Qed.

Lemma initiator_fault_is_not_retried_witness :
  response failing_initiator = json (failure "Internal server error") 500 /\
  payment_calls failing_initiator = 1%nat.
Proof.
  destruct (initiator_fault_is_not_retried failing_initiator
              (Js.Str "O1") (Js.Str "C1") order_O1 ada network_down)
    as (Hr & _ & _ & Hn); by_evaluation.
  split; assumption.
Defined.

(** X4: a request body that parses to JSON [null] makes the destructuring
    throw and is answered 500, whereas a body that is a number, a string, a
    boolean or an array simply has no identifiers and is answered 400; in
    both cases no collaborator is called. *)
Theorem non_object_body
    (w : World) (body : Js.value) :
  request_json w = Returns body ->
  (body = Js.Null ->
   response w = json (failure "Internal server error") 500 /\
   calls (trace w) = []) /\
  (is_scalar_or_array body = true ->
   response w = json (failure "Order ID and Customer ID are required") 400 /\
   calls (trace w) = []).
Proof.
  intros Hbody. split.
  - intros ->. run_handler. rewrite Hbody. simpl. split; reflexivity.
  - intros Hkind. run_handler. rewrite Hbody.
    destruct body; try discriminate; simpl; split; reflexivity.
Qed.

Lemma non_object_body_witness :
  response (world_of Js.Null (found order_O1) (resolved ada) paid_REF123)
    = json (failure "Internal server error") 500 /\
  response (world_of (Js.Arr [Js.Str "O1"; Js.Str "C1"]) (found order_O1)
              (resolved ada) paid_REF123)
    = json (failure "Order ID and Customer ID are required") 400.
Proof.
  split.
  - apply (non_object_body
             (world_of Js.Null (found order_O1) (resolved ada) paid_REF123) Js.Null);
      reflexivity.
  - apply (non_object_body
             (world_of (Js.Arr [Js.Str "O1"; Js.Str "C1"]) (found order_O1)
                (resolved ada) paid_REF123)
             (Js.Arr [Js.Str "O1"; Js.Str "C1"]));
      reflexivity.
Defined.

(** Passing the guards of lines 13-57 is being [eligible]. *)
Lemma guards_give_eligible
    (w : World) (body orderId customerId : Js.value)
    (r : OrderResponse.t) (p : OrderResponse.payload) :
  request_json w = Returns body ->
  destructure body = Returns (orderId, customerId) ->
  negb (Js.truthy orderId) || negb (Js.truthy customerId) = false ->
  getOrderById w orderId = Returns r ->
  OrderResponse.success r = true ->
  OrderResponse.data r = Some p ->
  negb (Js.strict_eq_string (Order.customerId (OrderResponse.order p)) customerId)
    = false ->
  negb (OrderStatus_eqb (Order.status (OrderResponse.order p)) READY) = false ->
  negb (PaymentMethod_eqb (Order.paymentMethod (OrderResponse.order p)) PAY_ON_PICKUP)
    = false ->
  eligible w orderId customerId (OrderResponse.order p).
Proof.
  intros Hrq Hids Hpresent Hget Hok Hdata Hown Hs Hm.
  apply orb_false_iff in Hpresent. destruct Hpresent as [Ho Hc].
  apply negb_false_iff in Ho, Hc, Hown, Hs, Hm.
  split; [split; [split; [|split] | split] | split].
  - exists body. split; assumption.
  - exact Ho.
  - exact Hc.
  - exists r. destruct p as [order]. repeat split; assumption.
  - apply strict_eq_string_true. exact Hown.
  - apply OrderStatus_eqb_eq. exact Hs.
  - apply PaymentMethod_eqb_eq. exact Hm.
Qed.

(** X5: the handler initiates a payment only for an order that the store
    returned, that belongs to the requesting customer, is ready and is to be
    paid on pickup, and only after the customer's profile was resolved; the
    request it sends is the one built from that order and that profile (so
    its amount is the order's [finalAmount]). *)
Theorem payment_only_for_eligible_orders (w : World) (pd : PaymentData.t) :
  In (InitializePayment pd) (calls (trace w)) ->
  exists orderId customerId order customer,
    eligible w orderId customerId order /\
    resolves w customerId customer /\
    pd = paymentData w orderId customerId order customer.
Proof.
  run_handler. simpl.
  all_cases; simpl; intros Hin.
  all: repeat match goal with
              | H : _ \/ _ |- _ => destruct H
              | H : False |- _ => contradiction
              | H : InitializePayment _ = InitializePayment _ |- _ =>
                  inversion H; clear H; subst
              end; try discriminate.
  all: match goal with
       | Hp : ProfileResponse.data ?cr = Some ?c,
         Hd : OrderResponse.data _ = Some ?p,
         Hi : destructure _ = Returns (?o, ?c') |- _ =>
           exists o, c', (OrderResponse.order p), c
       end.
  all: split; [eapply guards_give_eligible; eassumption|].
  all: split; [eexists; repeat split; eassumption | reflexivity].
Qed.

Lemma payment_only_for_eligible_orders_witness :
  exists orderId customerId order customer,
    eligible scenario orderId customerId order /\
    resolves scenario customerId customer /\
    paymentData scenario (Js.Str "O1") (Js.Str "C1") order_O1 ada
      = paymentData scenario orderId customerId order customer.
Proof.
  apply (payment_only_for_eligible_orders scenario
           (paymentData scenario (Js.Str "O1") (Js.Str "C1") order_O1 ada)).
  simpl. right. right. left. reflexivity.
Defined.

(** X6: the identity provider is asked only about the owner of a stored,
    ready, pay-on-pickup order, and only under the customer identifier of the
    request; no profile is looked up for a request that fails an earlier
    check. *)
Theorem profile_lookup_only_for_eligible_orders
    (w : World) (customerId : Js.value) :
  In (GetUserProfile customerId) (calls (trace w)) ->
  exists orderId order,
    eligible w orderId customerId order /\
    customerId = Js.Str (Order.customerId order).
Proof.
  run_handler. simpl.
  all_cases; simpl; intros Hin.
  all: repeat match goal with
              | H : _ \/ _ |- _ => destruct H
              | H : False |- _ => contradiction
              | H : GetUserProfile _ = GetUserProfile _ |- _ =>
                  inversion H; clear H; subst
              end; try discriminate.
  all: match goal with
       | Hd : OrderResponse.data _ = Some ?p,
         Hi : destructure _ = Returns (?o, _) |- _ =>
           exists o, (OrderResponse.order p)
       end.
  all: assert (Hel : eligible w v customerId (OrderResponse.order p))
         by (eapply guards_give_eligible; eassumption).
  all: split; [exact Hel | apply Hel].
Qed.

Lemma profile_lookup_only_for_eligible_orders_witness :
  exists orderId order,
    eligible scenario orderId (Js.Str "C1") order /\
    Js.Str "C1" = Js.Str (Order.customerId order).
Proof.
  apply (profile_lookup_only_for_eligible_orders scenario (Js.Str "C1")).
  simpl. right. left. reflexivity.
Defined.

(** X7: a success answer (status 200) is given only after exactly one
    payment initiation whose result carried a non-empty checkout URL, and
    that URL is the one in the answer's body. *)
Theorem success_always_carries_checkout_url (w : World) :
  Response.status (response w) = 200 ->
  exists url reference,
    url <> "" /\
    Response.body (response w) =
      Js.Obj [("success", Js.Bool true);
              ("data", Js.Obj [("authorizationUrl", Js.Str url);
                               ("reference", Js.of_option reference)])] /\
    payment_calls w = 1%nat.
Proof.
  unfold payment_calls. run_handler. simpl.
  all_cases; simpl; intros Hstatus; try discriminate.
  match goal with
  | H : authorized ?r = Some ?d |- _ =>
      unfold authorized in H;
      destruct (PaymentResult.success r); [|discriminate];
      destruct (PaymentResult.data r) as [d'|]; [|discriminate];
      destruct d' as [[url|] reference]; simpl in H; [|discriminate];
      destruct (String.eqb_spec url ""); simpl in H; [discriminate|];
      inversion H; subst; exists url, reference
  end.
  repeat split; assumption.
Qed.

Lemma success_always_carries_checkout_url_witness :
  exists url reference,
    url <> "" /\
    Response.body (response scenario) =
      Js.Obj [("success", Js.Bool true);
              ("data", Js.Obj [("authorizationUrl", Js.Str url);
                               ("reference", Js.of_option reference)])] /\
    payment_calls scenario = 1%nat.
Proof.
  apply (success_always_carries_checkout_url scenario). reflexivity.
Defined.

(** X8: the handler does not check that the application URL is configured:
    with [NEXT_PUBLIC_APP_URL] unset an eligible request still reaches the
    payment initiator, and the callback URL it sends is
    "undefined/payment/callback". *)
Theorem unset_app_url_still_initiates
    (w : World) (orderId customerId : Js.value) (order : Order.t)
    (customer : Customer.t) :
  eligible w orderId customerId order ->
  resolves w customerId customer ->
  NEXT_PUBLIC_APP_URL w = None ->
  exists pd,
    In (InitializePayment pd) (calls (trace w)) /\
    PaymentData.callback_url pd = "undefined/payment/callback".
Proof.
  intros Hel Hres Hurl.
  exists (paymentData w orderId customerId order customer). split.
  - destruct (initializePayment w (paymentData w orderId customerId order customer))
      as [pr|e] eqn:Hpay; unfold trace.
    + rewrite (POST_payment_answered w orderId customerId order customer pr Hel Hres Hpay).
      simpl. auto.
    + rewrite (POST_initiator_fault w orderId customerId order customer e Hel Hres Hpay).
      simpl. auto.
  - simpl. rewrite Hurl. reflexivity.
Qed.

Lemma unset_app_url_still_initiates_witness :
  exists pd,
    In (InitializePayment pd) (calls (trace unconfigured)) /\
    PaymentData.callback_url pd = "undefined/payment/callback".
Proof.
  apply (unset_app_url_still_initiates unconfigured
           (Js.Str "O1") (Js.Str "C1") order_O1 ada); by_evaluation.
Defined.

(** ** The registration form *)

Lemma text_eqb_eq (a b : Register.text) :
  Register.text_eqb a b = true <-> a = b.
Proof.
  unfold Register.text_eqb.
  destruct (list_eq_dec N.eq_dec a b); split; congruence.
Qed.

Lemma shown_false (m : string) : Register.shown m = false <-> m = "".
Proof.
  unfold Register.shown. rewrite negb_false_iff. apply String.eqb_eq.
Qed.

Lemma classes_are_not_terminators (c : N) :
  Register.lower c = true \/ Register.upper c = true \/ Register.digit c = true ->
  Register.line_terminator c = false.
Proof.
  unfold Register.lower, Register.upper, Register.digit, Uri.between,
    Register.line_terminator.
  simpl. intros H.
  repeat rewrite orb_false_iff. repeat split; try reflexivity;
    apply N.eqb_neq; intros ->; simpl in H;
    destruct H as [H | [H | H]]; discriminate.
Qed.

(** [.*X] from the start finds an [X] exactly on the first line, when no
    line terminator is an [X]. *)
Lemma any_then_first_line (X : N -> bool) (v : Register.text) :
  (forall c, X c = true -> Register.line_terminator c = false) ->
  Register.any_then X v = true <->
  exists c, In c (Register.first_line v) /\ X c = true.
Proof.
  intros HX. induction v as [|c rest IH]; simpl.
  - split; [discriminate | intros (c & [] & _)].
  - destruct (X c) eqn:Hc; simpl.
    + rewrite (HX c Hc). split; [|reflexivity].
      intros _. exists c. split; [left; reflexivity | exact Hc].
    + destruct (Register.line_terminator c) eqn:Ht; simpl.
      * split; [discriminate | intros (c' & [] & _)].
      * rewrite IH. split.
        -- intros (c' & Hin & Hc'). exists c'. split; [right; exact Hin | exact Hc'].
        -- intros (c' & [-> | Hin] & Hc'); [congruence|].
           exists c'. split; assumption.
Qed.

(** When a submission gets as far as calling [register]. *)
Lemma submit_attempts_iff (env : Register.Env) (s : Register.State)
    (d : Register.Registration.t) :
  In (Register.CallRegister d) (snd (Register.handleSubmit env s)) <->
  d = Register.registration (Register.formData s) /\
  Register.FormData.password (Register.formData s)
    = Register.FormData.confirmPassword (Register.formData s) /\
  Register.phoneError s = "" /\
  Register.passwordError s = "" /\
  Register.validateNigerianPhone env
    (Register.FormData.phone (Register.formData s)) = true /\
  (8 <= List.length (Register.FormData.password (Register.formData s)))%nat /\
  Register.mixed (Register.FormData.password (Register.formData s)) = true.
Proof.
  unfold Register.handleSubmit.
  destruct (Register.text_eqb _ _) eqn:Heq; simpl.
  2:{ split; [intros [H | []]; discriminate|].
      intros (_ & H & _). apply text_eqb_eq in H. congruence. }
  apply text_eqb_eq in Heq.
  destruct (Register.shown (Register.phoneError s)) eqn:Hpe; simpl.
  { split; [intros [H | []]; discriminate|].
    intros (_ & _ & H & _). apply shown_false in H. congruence. }
  apply shown_false in Hpe.
  destruct (Register.shown (Register.passwordError s)) eqn:Hwe; simpl.
  { split; [intros [H | []]; discriminate|].
    intros (_ & _ & _ & H & _). apply shown_false in H. congruence. }
  apply shown_false in Hwe.
  destruct (Register.validateNigerianPhone env _) eqn:Hv; simpl.
  2:{ split; [intros [H | []]; discriminate|].
      intros (_ & _ & _ & _ & H & _). discriminate. }
  destruct (Nat.ltb_spec (List.length (Register.FormData.password (Register.formData s))) 8)
    as [Hlt | Hge]; simpl.
  { split; [intros [H' | []]; discriminate|].
    intros (_ & _ & _ & _ & _ & H' & _). lia. }
  destruct (Register.mixed _) eqn:Hm; simpl.
  2:{ split; [intros [H' | []]; discriminate|].
      intros (_ & _ & _ & _ & _ & _ & H'). discriminate. }
  split.
  - intros Hin. repeat split; try assumption.
    destruct (Register.register env _) as [r|e]; [destruct (Register.Result.success r)|];
      simpl in Hin;
      repeat match goal with
             | H' : _ \/ _ |- _ => destruct H'
             | H' : False |- _ => contradiction
             end; try discriminate; congruence.
  - intros (-> & _).
    destruct (Register.register env _) as [r|e]; [destruct (Register.Result.success r)|];
      simpl; auto.
Qed.

Example pushed_url :
  snd (Register.handleSubmit Register.accepting
         (Register.filled_in "Passw0rdX" "Passw0rdX")) =
  [Register.PreventDefault;
   Register.CallRegister
     (Register.registration
        (Register.formData (Register.filled_in "Passw0rdX" "Passw0rdX")));
   Register.RouterPush
     "/login?message=Registration%20successful!%20Please%20check%20your%20email%20for%20verification%20and%20log%20in%20to%20continue.&type=success"].
Proof. reflexivity. Qed.

(** X9: a submission calls [register] exactly when the two passwords are
    equal, no phone or password error is pending, the phone validator
    accepts the phone, and the password has at least 8 code units and
    passes the mixed-characters pattern; the data it sends are the form's
    fields. *)
Theorem register_called_iff_form_valid
    (env : Register.Env) (s : Register.State) (d : Register.Registration.t) :
  In (Register.CallRegister d) (snd (Register.handleSubmit env s)) <->
  d = Register.registration (Register.formData s) /\
  Register.FormData.password (Register.formData s)
    = Register.FormData.confirmPassword (Register.formData s) /\
  Register.phoneError s = "" /\
  Register.passwordError s = "" /\
  Register.validateNigerianPhone env
    (Register.FormData.phone (Register.formData s)) = true /\
  (8 <= List.length (Register.FormData.password (Register.formData s)))%nat /\
  Register.mixed (Register.FormData.password (Register.formData s)) = true.
Proof. apply submit_attempts_iff. Qed.

(** X10: a submission calls [register] at most once, and the loading flag
    is back to false after every submission that called it - whether
    [register] reported success, reported failure or threw; a submission
    stopped by validation leaves the flag as it was. *)
Theorem submit_never_leaves_loading (env : Register.Env) (s : Register.State) :
  (List.length (List.filter Register.is_register
                  (snd (Register.handleSubmit env s))) <= 1)%nat /\
  Register.isLoading (fst (Register.handleSubmit env s)) =
    if existsb Register.is_register (snd (Register.handleSubmit env s))
    then false else Register.isLoading s.
Proof.
  unfold Register.handleSubmit.
  repeat (case_step; simpl; try (split; [lia | reflexivity])).
Qed.

(** X11: typing an empty password shows no password error, yet an empty
    password is never submitted: the submission stops with a message and
    without calling [register]. *)
Theorem empty_password_passes_typing_not_submit
    (env : Register.Env) (s : Register.State) :
  let typed := Register.handleInputChange env Register.password [] s in
  Register.passwordError typed = "" /\
  snd (Register.handleSubmit env typed) = [Register.PreventDefault] /\
  Register.error (fst (Register.handleSubmit env typed)) <> "".
Proof.
  simpl. split; [reflexivity|].
  unfold Register.handleSubmit, Register.handleInputChange. simpl.
  destruct (Register.text_eqb _ _); simpl; [|split; [reflexivity | discriminate]].
  destruct (Register.shown (Register.phoneError s)) eqn:Hpe; simpl.
  - split; [reflexivity|]. intros H. apply shown_false in H. congruence.
  - destruct (Register.validateNigerianPhone env _); simpl;
      split; try reflexivity; discriminate.
Qed.

(** X12: the mixed-characters pattern holds exactly when the first line of
    the password (what precedes its first line terminator) contains an
    ASCII lowercase letter, an ASCII uppercase letter and an ASCII digit;
    nothing after a line break counts. *)
Theorem mixed_iff_classes_on_first_line (v : Register.text) :
  Register.mixed v = true <->
  (exists c, In c (Register.first_line v) /\ Register.lower c = true) /\
  (exists c, In c (Register.first_line v) /\ Register.upper c = true) /\
  (exists c, In c (Register.first_line v) /\ Register.digit c = true).
Proof.
  unfold Register.mixed. rewrite !andb_true_iff.
  rewrite !any_then_first_line;
    try (intros c Hc; apply classes_are_not_terminators; auto).
  tauto.
Qed.

Example mixed_samples :
  map (fun p => Register.mixed (Register.of_ascii p))
    ["Passw0rd"; "password1"; "PASSWORD1"; "Password"; "aB3"; ""] =
  [true; false; false; false; true; false] /\
  Register.mixed
    (Register.of_ascii "abc" ++ [10%N] ++ Register.of_ascii "DEF123")%list
    = false.
Proof. split; reflexivity. Qed.

Lemma typed_state (env : Register.Env) (s : Register.State)
    (p v : Register.text) :
  let typed :=
    Register.handleInputChange env Register.confirmPassword v
      (Register.handleInputChange env Register.password v
         (Register.handleInputChange env Register.phone p s)) in
  Register.FormData.phone (Register.formData typed) = p /\
  Register.FormData.password (Register.formData typed) = v /\
  Register.FormData.confirmPassword (Register.formData typed) = v /\
  Register.phoneError typed =
    (if Register.filled p && negb (Register.validateNigerianPhone env p)
     then Register.invalid_phone else "") /\
  Register.passwordError typed =
    (if Register.filled v && (List.length v <? 8)%nat then Register.too_short
     else if Register.filled v && negb (Register.mixed v) then Register.not_mixed
     else "").
Proof.
  unfold Register.handleInputChange. simpl.
  destruct (Register.filled p && negb (Register.validateNigerianPhone env p));
    destruct (Register.filled v && (List.length v <? 8)%nat);
    destruct (Register.filled v && negb (Register.mixed v));
    repeat split.
Qed.

(** X13: after the phone, the password and its confirmation have been typed
    (the same password twice), whatever the form showed before, a
    submission calls [register] exactly when the validator accepts the phone
    and the password has at least 8 code units and passes the pattern. *)
Theorem typed_form_submits_iff
    (env : Register.Env) (s : Register.State) (p v : Register.text) :
  let typed :=
    Register.handleInputChange env Register.confirmPassword v
      (Register.handleInputChange env Register.password v
         (Register.handleInputChange env Register.phone p s)) in
  (exists d, In (Register.CallRegister d) (snd (Register.handleSubmit env typed))) <->
  Register.validateNigerianPhone env p = true /\
  (8 <= List.length v)%nat /\
  Register.mixed v = true.
Proof.
  intros typed.
  destruct (typed_state env s p v) as (Hp & Hw & Hc & Hpe & Hwe).
  fold typed in Hp, Hw, Hc, Hpe, Hwe.
  split.
  - intros (d & Hin). apply submit_attempts_iff in Hin.
    destruct Hin as (_ & _ & _ & _ & Hv & Hlen & Hm).
    rewrite Hp in Hv. rewrite Hw in Hlen, Hm. auto.
  - intros (Hv & Hlen & Hm).
    exists (Register.registration (Register.formData typed)).
    apply submit_attempts_iff.
    rewrite Hp, Hw, Hc, Hpe, Hwe, Hv, Hm.
    destruct (Nat.ltb_spec (List.length v) 8) as [Hlt | Hge]; [lia|].
    rewrite !andb_false_r. repeat split; assumption.
Qed.

(** ** The dashboard's loaders *)

Lemma insert_permutation (env : Dashboard.Env) (x : Dashboard.Entry.t)
    (l : list Dashboard.Entry.t) :
  Permutation (Dashboard.insert env x l) (x :: l).
Proof.
  induction l as [|y rest IH]; simpl.
  - apply Permutation_refl.
  - destruct (Dashboard.newest_first env x y <=? 0).
    + apply Permutation_refl.
    + apply Permutation_trans with (y :: x :: rest).
      * apply perm_skip. exact IH.
      * apply perm_swap.
Qed.

Lemma sort_permutation (env : Dashboard.Env) (l : list Dashboard.Entry.t) :
  Permutation (Dashboard.sort env l) l.
Proof.
  induction l as [|x rest IH]; simpl.
  - apply perm_nil.
  - apply Permutation_trans with (x :: Dashboard.sort env rest).
    + apply insert_permutation.
    + apply perm_skip. exact IH.
Qed.

Lemma sort_length (env : Dashboard.Env) (l : list Dashboard.Entry.t) :
  List.length (Dashboard.sort env l) = List.length l.
Proof. apply Permutation_length, sort_permutation. Qed.

Lemma filter_length_permutation {A} (p : A -> bool) (l l' : list A) :
  Permutation l l' ->
  List.length (filter p l) = List.length (filter p l').
Proof.
  induction 1; simpl.
  - reflexivity.
  - destruct (p x); simpl; congruence.
  - destruct (p x), (p y); reflexivity.
  - congruence.
Qed.

Lemma disjoint_filters {A} (p q : A -> bool) (l : list A) :
  (forall a, p a = true -> q a = false) ->
  (List.length (filter p l) + List.length (filter q l) <= List.length l)%nat.
Proof.
  intros Hpq. induction l as [|a rest IH]; simpl; [lia|].
  destruct (p a) eqn:Hp.
  - rewrite (Hpq a Hp). simpl. lia.
  - destruct (q a); simpl; lia.
Qed.

Lemma pending_is_not_delivered (e : Dashboard.Entry.t) :
  Dashboard.has_status PENDING e = true ->
  Dashboard.has_status DELIVERED e = false.
Proof.
  unfold Dashboard.has_status.
  destruct (Dashboard.status_of e); simpl; congruence.
Qed.

Lemma not_older_trans (env : Dashboard.Env) (a b c : Dashboard.Entry.t) :
  Dashboard.not_older env a b -> Dashboard.not_older env b c ->
  Dashboard.not_older env a c.
Proof.
  intros (ta & tb & Ha & Hb & Hab) (tb' & tc & Hb' & Hc & Hbc).
  exists ta, tc. repeat split; try assumption.
  rewrite Hb in Hb'. inversion Hb'. subst. lia.
Qed.

Lemma dated_cons (env : Dashboard.Env) (x : Dashboard.Entry.t)
    (l : list Dashboard.Entry.t) :
  Dashboard.dated env (x :: l) ->
  (exists t, Dashboard.getTime env (Dashboard.Entry.createdAt x) = Some t) /\
  Dashboard.dated env l.
Proof.
  intros H. inversion H as [|? ? (t & Ht & _) Hl]; subst.
  split; [exists t; exact Ht | exact Hl].
Qed.

Lemma insert_sorted (env : Dashboard.Env) (x : Dashboard.Entry.t)
    (l : list Dashboard.Entry.t) :
  Dashboard.dated env (x :: l) ->
  StronglySorted (Dashboard.not_older env) l ->
  StronglySorted (Dashboard.not_older env) (Dashboard.insert env x l).
Proof.
  intros Hd. apply dated_cons in Hd. destruct Hd as ((tx & Hx) & Hl).
  induction l as [|y rest IH]; simpl; intros Hs.
  - constructor; constructor.
  - apply dated_cons in Hl. destruct Hl as ((ty & Hy) & Hrest).
    inversion Hs as [|? ? Hs' Hall]; subst.
    unfold Dashboard.newest_first. rewrite Hx, Hy.
    destruct (Z.leb_spec (ty - tx) 0).
    + assert (Hxy : Dashboard.not_older env x y).
      { exists tx, ty. repeat split; try assumption. lia. }
      constructor; [exact Hs|].
      constructor; [exact Hxy|].
      eapply Forall_impl; [|exact Hall].
      intros z Hyz. eapply not_older_trans; eassumption.
    + assert (Hyx : Dashboard.not_older env y x).
      { exists ty, tx. repeat split; try assumption. lia. }
      constructor; [apply IH; assumption|].
      apply Forall_forall. intros z Hz.
      apply (Permutation_in _ (insert_permutation env x rest)) in Hz.
      destruct Hz as [<- | Hz]; [exact Hyx|].
      rewrite Forall_forall in Hall. apply Hall. exact Hz.
Qed.

Lemma sort_sorted (env : Dashboard.Env) (l : list Dashboard.Entry.t) :
  Dashboard.dated env l ->
  StronglySorted (Dashboard.not_older env) (Dashboard.sort env l).
Proof.
  induction l as [|x rest IH]; simpl; intros Hd.
  - constructor.
  - apply insert_sorted.
    + destruct (dated_cons env x rest Hd) as [_ Hrest].
      inversion Hd; subst. constructor; [assumption|].
      unfold Dashboard.dated in *. rewrite Forall_forall in *.
      intros z Hz. apply Hrest.
      apply (Permutation_in _ (sort_permutation env rest)). exact Hz.
    + apply IH. apply (dated_cons env x rest Hd).
Qed.

Lemma all_returns_length {A} (l : list (Outcome A)) (rs : list A) :
  Dashboard.all l = Returns rs -> l = map Returns rs.
Proof.
  revert rs. induction l as [|o rest IH]; simpl; intros rs H.
  - inversion H. reflexivity.
  - destruct o as [a|e]; [|discriminate].
    destruct (Dashboard.all rest) as [l'|e] eqn:E; [|discriminate].
    inversion H; subst. simpl. f_equal. apply IH. reflexivity.
Qed.

Lemma all_throws {A} (l : list (Outcome A)) (e : Js.value) :
  In (Throws e) l -> exists e', Dashboard.all l = Throws e'.
Proof.
  induction l as [|o rest IH]; simpl; [contradiction|].
  intros [-> | Hin]; [eauto|].
  destruct o as [a|e0]; [|eauto].
  destruct (IH Hin) as [e' ->]. eauto.
Qed.

Lemma firstn_min_length {A} (n : nat) (l : list A) :
  List.length (firstn n l) = Nat.min n (List.length l).
Proof. apply length_firstn. Qed.

Example sample_orders_loaded :
  let s := Dashboard.loadOrdersData Dashboard.sample Dashboard.initial in
  map Dashboard.Entry.createdAt (Dashboard.recentOrders s)
    = ["d50"; "d40"; "d30"; "d20"; "d10"] /\
  Dashboard.Stats.totalOrders (Dashboard.stats s) = 5%nat /\
  Dashboard.Stats.pendingOrders (Dashboard.stats s) = 2%nat /\
  Dashboard.Stats.completedOrders (Dashboard.stats s) = 2%nat /\
  Dashboard.Stats.totalRevenue (Dashboard.stats s) = 3500%float /\
  Dashboard.Stats.monthlyRevenue (Dashboard.stats s) = 500%float /\
  Dashboard.Stats.averageOrderValue (Dashboard.stats s) = 700%float.
Proof. vm_compute. repeat split. Qed.

(** X14: whatever the store answers, after the orders are loaded the
    pending and the completed counts together never exceed the total, and
    the recent-orders list holds ten orders, or all of them when there are
    fewer. *)
Theorem order_counts_are_consistent (env : Dashboard.Env) (s : Dashboard.State) :
  let s' := Dashboard.loadOrdersData env s in
  (Dashboard.Stats.pendingOrders (Dashboard.stats s') +
   Dashboard.Stats.completedOrders (Dashboard.stats s')
   <= Dashboard.Stats.totalOrders (Dashboard.stats s'))%nat /\
  List.length (Dashboard.recentOrders s') =
    Nat.min 10 (Dashboard.Stats.totalOrders (Dashboard.stats s')).
Proof.
  unfold Dashboard.loadOrdersData.
  destruct (Dashboard.getOrdersByStatus env PENDING 5); [|split; reflexivity].
  destruct (Dashboard.all _) as [responses|]; [|split; reflexivity].
  cbn [Dashboard.stats Dashboard.recentOrders Dashboard.setStats
       Dashboard.setRecentOrders Dashboard.Stats.pendingOrders
       Dashboard.Stats.completedOrders Dashboard.Stats.totalOrders].
  split.
  - apply disjoint_filters. apply pending_is_not_delivered.
  - apply firstn_min_length.
Qed.

(** X15: when the queries answer and every creation stamp parses, the
    recent-orders list is the first ten of the fetched orders arranged
    newest first: it is a prefix of a rearrangement of all the rows of the
    successful queries in which no order precedes a newer one. *)
Theorem recent_orders_are_the_newest
    (env : Dashboard.Env) (s : Dashboard.State)
    (test : Dashboard.Listing.t Dashboard.Entry.t)
    (responses : list (Dashboard.Listing.t Dashboard.Entry.t)) :
  Dashboard.getOrdersByStatus env PENDING 5 = Returns test ->
  Dashboard.all (map (fun st => Dashboard.getOrdersByStatus env st 100)
                   Dashboard.queried) = Returns responses ->
  Dashboard.dated env (Dashboard.combine_rows responses) ->
  exists arranged,
    Permutation arranged (Dashboard.combine_rows responses) /\
    StronglySorted (Dashboard.not_older env) arranged /\
    Dashboard.recentOrders (Dashboard.loadOrdersData env s) = firstn 10 arranged /\
    Dashboard.Stats.totalOrders (Dashboard.stats (Dashboard.loadOrdersData env s))
      = List.length (Dashboard.combine_rows responses).
Proof.
  intros Htest Hall Hdated.
  exists (Dashboard.sort env (Dashboard.combine_rows responses)).
  unfold Dashboard.loadOrdersData. rewrite Htest, Hall. simpl.
  repeat split.
  - apply sort_permutation.
  - apply sort_sorted. exact Hdated.
  - apply sort_length.
Qed.

Lemma recent_orders_are_the_newest_witness :
  exists arranged,
    Permutation arranged
      (Dashboard.combine_rows
         (map (fun st => Dashboard.listing (Dashboard.sample_orders st))
            Dashboard.queried)) /\
    StronglySorted (Dashboard.not_older Dashboard.sample) arranged /\
    Dashboard.recentOrders (Dashboard.loadOrdersData Dashboard.sample Dashboard.initial)
      = firstn 10 arranged /\
    Dashboard.Stats.totalOrders
      (Dashboard.stats (Dashboard.loadOrdersData Dashboard.sample Dashboard.initial))
      = List.length
          (Dashboard.combine_rows
             (map (fun st => Dashboard.listing (Dashboard.sample_orders st))
                Dashboard.queried)).
Proof.
  apply (recent_orders_are_the_newest Dashboard.sample Dashboard.initial
           (Dashboard.listing (Dashboard.sample_orders PENDING))).
  - reflexivity.
  - reflexivity.
  - simpl. unfold Dashboard.dated.
    repeat (constructor; [eexists; split; [reflexivity | discriminate]|]).
    constructor.
Defined.

(** X16: when any of the eight status queries throws, the recent-orders
    list is emptied and the six order figures are set to zero, while the
    customer and staff figures, the satisfaction score and the customer,
    staff and service lists stay as they were. *)
Theorem orders_fault_resets_order_figures
    (env : Dashboard.Env) (s : Dashboard.State) :
  (exists e, Dashboard.getOrdersByStatus env PENDING 5 = Throws e) \/
  (exists st e, In st Dashboard.queried /\
                Dashboard.getOrdersByStatus env st 100 = Throws e) ->
  Dashboard.loadOrdersData env s =
  Dashboard.mkState (Dashboard.isLoading s) (Dashboard.customers s)
    (Dashboard.staff s) [] (Dashboard.services s)
    (Dashboard.Stats.mk 0%float 0%float 0 
       (Dashboard.Stats.activeCustomers (Dashboard.stats s)) 0 0 0%float
       (Dashboard.Stats.customerSatisfaction (Dashboard.stats s))
       (Dashboard.Stats.totalStaff (Dashboard.stats s))
       (Dashboard.Stats.activeStaff (Dashboard.stats s))).
Proof.
  intros Hfault. unfold Dashboard.loadOrdersData.
  destruct (Dashboard.getOrdersByStatus env PENDING 5) as [test|e0] eqn:Htest;
    [|reflexivity].
  destruct Hfault as [(e & He) | (st & e & Hin & He)]; [discriminate|].
  destruct (all_throws
              (map (fun st => Dashboard.getOrdersByStatus env st 100) Dashboard.queried)
              e) as [e' ->]; [|reflexivity].
  rewrite <- He. apply in_map with (f := fun st => Dashboard.getOrdersByStatus env st 100).
  exact Hin.
Qed.

Lemma orders_fault_resets_order_figures_witness :
  Dashboard.recentOrders
    (Dashboard.loadOrdersData Dashboard.store_down
       (Dashboard.loadOrdersData Dashboard.sample Dashboard.initial)) = [] /\
  Dashboard.Stats.customerSatisfaction
    (Dashboard.stats
       (Dashboard.loadOrdersData Dashboard.store_down
          (Dashboard.loadOrdersData Dashboard.sample Dashboard.initial)))
    = Dashboard.Stats.customerSatisfaction (Dashboard.stats Dashboard.initial).
Proof.
  rewrite (orders_fault_resets_order_figures Dashboard.store_down
             (Dashboard.loadOrdersData Dashboard.sample Dashboard.initial)).
  - split; reflexivity.
  - right. exists CANCELLED, (Js.Str "fetch failed").
    split; [simpl; tauto | reflexivity].
Defined.

(** X17: after the orders are loaded, no completed order means no revenue
    (total and monthly are 0), and no order at all means an average order
    value of 0 rather than the NaN of 0/0. *)
Theorem no_orders_no_revenue (env : Dashboard.Env) (s : Dashboard.State) :
  let st := Dashboard.stats (Dashboard.loadOrdersData env s) in
  (Dashboard.Stats.completedOrders st = 0%nat ->
   Dashboard.Stats.totalRevenue st = 0%float /\
   Dashboard.Stats.monthlyRevenue st = 0%float) /\
  (Dashboard.Stats.totalOrders st = 0%nat ->
   Dashboard.Stats.averageOrderValue st = 0%float).
Proof.
  unfold Dashboard.loadOrdersData.
  destruct (Dashboard.getOrdersByStatus env PENDING 5);
    [|split; intros _; repeat split].
  destruct (Dashboard.all _) as [responses|];
    [|split; intros _; repeat split].
  cbn [Dashboard.stats Dashboard.setStats Dashboard.setRecentOrders
       Dashboard.Stats.completedOrders Dashboard.Stats.totalRevenue
       Dashboard.Stats.monthlyRevenue Dashboard.Stats.totalOrders
       Dashboard.Stats.averageOrderValue].
  split.
  - intros Hnone. apply length_zero_iff_nil in Hnone. rewrite Hnone.
    split; reflexivity.
  - intros Hnone. rewrite Hnone. reflexivity.
Qed.

Lemma no_orders_no_revenue_witness :
  Dashboard.Stats.totalRevenue
    (Dashboard.stats (Dashboard.loadOrdersData Dashboard.store_down Dashboard.initial))
    = 0%float /\
  Dashboard.Stats.averageOrderValue
    (Dashboard.stats (Dashboard.loadOrdersData Dashboard.store_down Dashboard.initial))
    = 0%float.
Proof.
  destruct (no_orders_no_revenue Dashboard.store_down Dashboard.initial)
    as [Hrevenue Haverage].
  split.
  - apply Hrevenue. reflexivity.
  - apply Haverage. reflexivity.
Defined.

(** X18: the performance shown for a staff member is never 0 and never
    NaN: a rating that is missing, zero (of either sign) or NaN is replaced
    by 4.5, any other rating is shown as it is. *)
Theorem staff_performance_is_never_zero (member : Dashboard.AdminUser.t) :
  let shown :=
    Dashboard.StaffWithStats.performance (Dashboard.with_stats member) in
  (PrimFloat.eqb shown 0%float = false /\ PrimFloat.eqb shown shown = true) /\
  (Dashboard.AdminUser.averageRating member = None -> shown = 4.5%float) /\
  (forall rating,
     Dashboard.AdminUser.averageRating member = Some rating ->
     PrimFloat.eqb rating 0%float = true \/ PrimFloat.eqb rating rating = false ->
     shown = 4.5%float) /\
  (forall rating,
     Dashboard.AdminUser.averageRating member = Some rating ->
     PrimFloat.eqb rating 0%float = false ->
     PrimFloat.eqb rating rating = true ->
     shown = rating).
Proof.
  unfold Dashboard.with_stats, Dashboard.number_or. simpl.
  destruct (Dashboard.AdminUser.averageRating member) as [v|].
  - destruct (PrimFloat.eqb v 0) eqn:Hzero; simpl.
    + repeat split; try reflexivity; try discriminate.
      intros rating H Hz. inversion H; subst. congruence.
    + destruct (PrimFloat.eqb v v) eqn:Hnan; simpl.
      * repeat split; try assumption; try discriminate.
        -- intros rating H [Hz | Hn]; inversion H; subst; congruence.
        -- intros rating H _ _. congruence.
      * repeat split; try reflexivity; try discriminate.
        intros rating H _ Hn. inversion H; subst. congruence.
  - repeat split; try reflexivity; intros rating H; discriminate.
Qed.

Lemma staff_performance_is_never_zero_witness :
  Dashboard.StaffWithStats.performance
    (Dashboard.with_stats (Dashboard.AdminUser.mk "S1" None (Some 0%float) true))
    = 4.5%float /\
  Dashboard.StaffWithStats.performance
    (Dashboard.with_stats (Dashboard.AdminUser.mk "S1" None (Some (-0)%float) true))
    = 4.5%float /\
  Dashboard.StaffWithStats.performance
    (Dashboard.with_stats (Dashboard.AdminUser.mk "S1" None (Some (0 / 0)%float) true))
    = 4.5%float /\
  Dashboard.StaffWithStats.performance
    (Dashboard.with_stats (Dashboard.AdminUser.mk "S3" None (Some 3%float) true))
    = 3%float.
Proof.
  split; [|split; [|split]].
  - destruct (staff_performance_is_never_zero
                (Dashboard.AdminUser.mk "S1" None (Some 0%float) true))
      as (_ & _ & Hdefault & _).
    apply (Hdefault 0%float); [reflexivity | left; reflexivity].
  - destruct (staff_performance_is_never_zero
                (Dashboard.AdminUser.mk "S1" None (Some (-0)%float) true))
      as (_ & _ & Hdefault & _).
    apply (Hdefault (-0)%float); [reflexivity | left; reflexivity].
  - destruct (staff_performance_is_never_zero
                (Dashboard.AdminUser.mk "S1" None (Some (0 / 0)%float) true))
      as (_ & _ & Hdefault & _).
    apply (Hdefault (0 / 0)%float); [reflexivity | right; reflexivity].
  - destruct (staff_performance_is_never_zero
                (Dashboard.AdminUser.mk "S3" None (Some 3%float) true))
      as (_ & _ & _ & Hkept).
    apply (Hkept 3%float); reflexivity.
Defined.

(** X19: after a successful staff query there is one staff entry per
    member, in the store's order; [totalStaff] is their number,
    [activeStaff] the number of members flagged active (so never more than
    [totalStaff]), and the other figures are untouched. *)
Theorem staff_counts
    (env : Dashboard.Env) (s : Dashboard.State)
    (r : Dashboard.Listing.t Dashboard.AdminUser.t)
    (data : list Dashboard.AdminUser.t) :
  Dashboard.getAllAdminUsers env = Returns r ->
  Dashboard.rows r = Some data ->
  let s' := Dashboard.loadStaffData env s in
  map Dashboard.StaffWithStats.member (Dashboard.staff s') = data /\
  Dashboard.stats s' =
    Dashboard.Stats.mk
      (Dashboard.Stats.totalRevenue (Dashboard.stats s))
      (Dashboard.Stats.monthlyRevenue (Dashboard.stats s))
      (Dashboard.Stats.totalOrders (Dashboard.stats s))
      (Dashboard.Stats.activeCustomers (Dashboard.stats s))
      (Dashboard.Stats.pendingOrders (Dashboard.stats s))
      (Dashboard.Stats.completedOrders (Dashboard.stats s))
      (Dashboard.Stats.averageOrderValue (Dashboard.stats s))
      (Dashboard.Stats.customerSatisfaction (Dashboard.stats s))
      (List.length data)
      (List.length (filter Dashboard.AdminUser.isActive data)) /\
  (Dashboard.Stats.activeStaff (Dashboard.stats s')
   <= Dashboard.Stats.totalStaff (Dashboard.stats s'))%nat.
Proof.
  intros Hget Hrows. unfold Dashboard.loadStaffData. rewrite Hget, Hrows.
  cbn [Dashboard.staff Dashboard.stats Dashboard.setStats Dashboard.setStaff
       Dashboard.Stats.activeStaff Dashboard.Stats.totalStaff].
  assert (Hactive :
            List.length (filter Dashboard.is_active_staff (map Dashboard.with_stats data))
            = List.length (filter Dashboard.AdminUser.isActive data)).
  { clear. induction data as [|m rest IH]; simpl; [reflexivity|].
    unfold Dashboard.is_active_staff at 1. simpl.
    destruct (Dashboard.AdminUser.isActive m); simpl; congruence. }
  rewrite Hactive, length_map. repeat split.
  - rewrite map_map. simpl. apply map_id.
  - apply filter_length_le.
Qed.

Lemma staff_counts_witness :
  Dashboard.Stats.totalStaff
    (Dashboard.stats (Dashboard.loadStaffData Dashboard.sample Dashboard.initial))
    = 2%nat /\
  Dashboard.Stats.activeStaff
    (Dashboard.stats (Dashboard.loadStaffData Dashboard.sample Dashboard.initial))
    = 1%nat.
Proof.
  destruct (staff_counts Dashboard.sample Dashboard.initial
              (Dashboard.listing
                 [Dashboard.AdminUser.mk "S1" (Some 12%float) (Some 0%float) true;
                  Dashboard.AdminUser.mk "S2" None None false])
              [Dashboard.AdminUser.mk "S1" (Some 12%float) (Some 0%float) true;
               Dashboard.AdminUser.mk "S2" None None false])
    as (_ & Hstats & _); [reflexivity | reflexivity |].
  rewrite Hstats. split; reflexivity.
Defined.

(** X20: when a customer's order lookup succeeds and every creation stamp
    parses, the customer is marked active exactly when one of their orders
    was created after the thirty-days-ago mark; [lastOrderDate] is then the
    stamp of an order no other order is newer than. *)
Theorem customer_active_iff_recent_order
    (env : Dashboard.Env) (customer : Dashboard.User.t)
    (r : Dashboard.Listing.t Dashboard.Entry.t) (data : list Dashboard.Entry.t) :
  Dashboard.rows r = Some data ->
  Dashboard.dated env data ->
  (Dashboard.CustomerWithStats.status (Dashboard.customer_stats env customer r)
     = Dashboard.active <->
   exists e, In e data /\
             Dashboard.recent env (Dashboard.Entry.createdAt e) = true) /\
  (forall stamp,
     Dashboard.CustomerWithStats.lastOrderDate (Dashboard.customer_stats env customer r)
       = Some stamp ->
     exists newest, In newest data /\ Dashboard.Entry.createdAt newest = stamp /\
                    Forall (Dashboard.not_older env newest) data).
Proof.
  intros Hrows Hdated. unfold Dashboard.customer_stats. rewrite Hrows.
  cbn [Dashboard.CustomerWithStats.status Dashboard.CustomerWithStats.lastOrderDate].
  pose proof (sort_permutation env data) as Hperm.
  pose proof (sort_sorted env data Hdated) as Hsorted.
  destruct (Dashboard.sort env data) as [|newest rest] eqn:Hsort.
  - apply Permutation_nil in Hperm. subst data. split.
    + split; [discriminate | intros (e & [] & _)].
    + intros stamp H. discriminate.
  - assert (Hin : In newest data)
      by (apply (Permutation_in _ Hperm); left; reflexivity).
    unfold Dashboard.dated in Hdated. rewrite Forall_forall in Hdated.
    destruct (Hdated newest Hin) as (tn & Htn & Hstamp).
    apply String.eqb_neq in Hstamp. rewrite Hstamp. simpl.
    inversion Hsorted as [|? ? _ Hall]; subst.
    rewrite Forall_forall in Hall.
    assert (Hmax : forall e, In e data -> Dashboard.not_older env newest e).
    { intros e He. apply (Permutation_in _ (Permutation_sym Hperm)) in He.
      destruct He as [<- | He]; [|apply Hall; exact He].
      exists tn, tn. repeat split; try assumption. lia. }
    split.
    + split.
      * intros Hactive. exists newest. split; [exact Hin|].
        destruct (Dashboard.recent env (Dashboard.Entry.createdAt newest));
          [reflexivity | discriminate].
      * intros (e & He & Hrecent).
        destruct (Hmax e He) as (tn' & te & Htn' & Hte & Hle).
        unfold Dashboard.recent in *. rewrite Hte in Hrecent. rewrite Htn'.
        apply Z.ltb_lt in Hrecent.
        assert (Hlt : (Dashboard.thirtyDaysAgo env <? tn') = true)
          by (apply Z.ltb_lt; lia).
        rewrite Hlt. reflexivity.
    + intros stamp H. inversion H; subst.
      exists newest. repeat split; try assumption.
      apply Forall_forall. exact Hmax.
Qed.

Lemma customer_active_iff_recent_order_witness :
  Dashboard.CustomerWithStats.status
    (Dashboard.customer_stats Dashboard.sample (Dashboard.User.mk "C1")
       (Dashboard.listing [Dashboard.entry PENDING 1000%float "d10";
                           Dashboard.entry DELIVERED 500%float "d50"]))
    = Dashboard.active.
Proof.
  destruct (customer_active_iff_recent_order Dashboard.sample (Dashboard.User.mk "C1")
              (Dashboard.listing [Dashboard.entry PENDING 1000%float "d10";
                                  Dashboard.entry DELIVERED 500%float "d50"])
              [Dashboard.entry PENDING 1000%float "d10";
               Dashboard.entry DELIVERED 500%float "d50"])
    as [Hactive _].
  - reflexivity.
  - unfold Dashboard.dated.
    repeat (constructor; [eexists; split; [reflexivity | discriminate]|]).
    constructor.
  - apply Hactive.
    exists (Dashboard.entry DELIVERED 500%float "d50").
    split; [right; left; reflexivity | reflexivity].
Defined.

Lemma all_returns {A B} (f : A -> Outcome B) (l : list A) :
  (forall a, In a l -> exists b, f a = Returns b) ->
  exists bs, Dashboard.all (map f l) = Returns bs /\
             List.length bs = List.length l.
Proof.
  induction l as [|a rest IH]; simpl; intros H.
  - exists []. split; reflexivity.
  - destruct (H a (or_introl eq_refl)) as [b Hb].
    destruct IH as (bs & Hbs & Hlen); [intros a' Ha'; apply H; right; exact Ha'|].
    exists (b :: bs). rewrite Hb, Hbs. simpl. split; congruence.
Qed.

Lemma map_fst_combine {A B} (l : list A) (l' : list B) :
  List.length l' = List.length l -> map fst (List.combine l l') = l.
Proof.
  revert l'. induction l as [|a rest IH]; intros [|b rest']; simpl;
    try discriminate; try reflexivity.
  intros H. f_equal. apply IH. congruence.
Qed.

(** X21: when the user query succeeds and no order lookup throws, every
    user of the answer gets an entry, in the same order - also a user whose
    lookup reported failure, who is listed with no orders - no message is
    shown, and [activeCustomers] is the number of entries marked active,
    never more than the number of users. *)
Theorem customers_load_keeps_every_user
    (env : Dashboard.Env) (s : Dashboard.State)
    (r : Dashboard.Listing.t Dashboard.User.t) (users : list Dashboard.User.t) :
  Dashboard.getAllUsers env 500 = Returns r ->
  Dashboard.rows r = Some users ->
  (forall u, In u users ->
     exists a, Dashboard.getOrdersByCustomer env (Dashboard.User.id u) = Returns a) ->
  let s' := fst (Dashboard.loadCustomersData env s) in
  map Dashboard.CustomerWithStats.customer (Dashboard.customers s') = users /\
  snd (Dashboard.loadCustomersData env s) = [] /\
  Dashboard.Stats.activeCustomers (Dashboard.stats s') =
    List.length (filter Dashboard.is_active_customer (Dashboard.customers s')) /\
  (Dashboard.Stats.activeCustomers (Dashboard.stats s') <= List.length users)%nat /\
  (forall u a,
     In u users ->
     Dashboard.getOrdersByCustomer env (Dashboard.User.id u) = Returns a ->
     Dashboard.rows a = None ->
     In (Dashboard.CustomerWithStats.mk u 0 0%float None Dashboard.inactive)
        (Dashboard.customers s')).
Proof.
  intros Hget Hrows Hall.
  destruct (all_returns (fun c => Dashboard.getOrdersByCustomer env (Dashboard.User.id c))
              users Hall) as (answers & Hanswers & Hlen).
  unfold Dashboard.loadCustomersData. rewrite Hget, Hrows, Hanswers.
  cbn [fst snd Dashboard.customers Dashboard.stats Dashboard.setStats
       Dashboard.setCustomers Dashboard.Stats.activeCustomers].
  assert (Hcust :
            map Dashboard.CustomerWithStats.customer
              (map (fun ca => Dashboard.customer_stats env (fst ca) (snd ca))
                 (List.combine users answers)) = users).
  { rewrite map_map. simpl. apply map_fst_combine. exact Hlen. }
  repeat split.
  - exact Hcust.
  - etransitivity; [apply filter_length_le|].
    rewrite length_map, length_combine, Hlen. lia.
  - intros u a Hu Ha Hnone.
    apply all_returns_length in Hanswers.
    assert (Hin : In (u, a) (List.combine users answers)).
    { clear - Hanswers Hu Ha. revert answers Hanswers.
      induction users as [|u' rest IH]; intros answers Hanswers; [contradiction|].
      destruct answers as [|a' answers']; [discriminate|].
      simpl in Hanswers. inversion Hanswers as [[Hhead Htail]].
      destruct Hu as [-> | Hu].
      - left. rewrite Ha in Hhead. inversion Hhead. reflexivity.
      - right. apply IH; assumption. }
    apply in_map with (f := fun ca => Dashboard.customer_stats env (fst ca) (snd ca))
      in Hin.
    simpl in Hin. unfold Dashboard.customer_stats in Hin at 1.
    rewrite Hnone in Hin. exact Hin.
Qed.

Lemma customers_load_keeps_every_user_witness :
  map Dashboard.CustomerWithStats.customer
    (Dashboard.customers (fst (Dashboard.loadCustomersData Dashboard.sample
                                 Dashboard.initial)))
    = [Dashboard.User.mk "C1"; Dashboard.User.mk "C2"] /\
  snd (Dashboard.loadCustomersData Dashboard.sample Dashboard.initial) = [].
Proof.
  destruct (customers_load_keeps_every_user Dashboard.sample Dashboard.initial
              (Dashboard.listing [Dashboard.User.mk "C1"; Dashboard.User.mk "C2"])
              [Dashboard.User.mk "C1"; Dashboard.User.mk "C2"])
    as (Hall & Hnone & _).
  - reflexivity.
  - reflexivity.
  - intros u [<- | [<- | []]]; eexists; reflexivity.
  - split; assumption.
Defined.

(** X22: the customer list is all or nothing: when the user query throws,
    or a single order lookup throws, the state is left exactly as it was
    and the message "Failed to load customers" is shown. *)
Theorem one_throwing_lookup_discards_customers
    (env : Dashboard.Env) (s : Dashboard.State) :
  (exists e, Dashboard.getAllUsers env 500 = Throws e) \/
  (exists r users u e,
     Dashboard.getAllUsers env 500 = Returns r /\
     Dashboard.rows r = Some users /\
     In u users /\
     Dashboard.getOrdersByCustomer env (Dashboard.User.id u) = Throws e) ->
  Dashboard.loadCustomersData env s =
    (s, [Dashboard.ToastError "Failed to load customers"]).
Proof.
  unfold Dashboard.loadCustomersData.
  intros [(e & ->) | (r & users & u & e & -> & -> & Hu & He)]; [reflexivity|].
  destruct (all_throws
              (map (fun c => Dashboard.getOrdersByCustomer env (Dashboard.User.id c)) users)
              e) as [e' ->]; [|reflexivity].
  rewrite <- He.
  apply in_map with (f := fun c => Dashboard.getOrdersByCustomer env (Dashboard.User.id c)).
  exact Hu.
Qed.

Lemma one_throwing_lookup_discards_customers_witness :
  Dashboard.loadCustomersData Dashboard.store_down Dashboard.initial =
    (Dashboard.initial, [Dashboard.ToastError "Failed to load customers"]).
Proof.
  apply (one_throwing_lookup_discards_customers Dashboard.store_down Dashboard.initial).
  left. eexists. reflexivity.
Defined.

(** X23: a full dashboard load always ends with the loading flag off, and
    the four loaders do not get in each other's way: each list of the final
    state is what its own loader produces from the initial state, whatever
    happened to the others (a failure while loading customers does not keep
    staff, orders or services from loading), and the only messages are the
    customer loader's. *)
Theorem dashboard_load_composes (env : Dashboard.Env) (s : Dashboard.State) :
  let s' := fst (Dashboard.loadDashboardData env s) in
  Dashboard.isLoading s' = false /\
  Dashboard.customers s' =
    Dashboard.customers (fst (Dashboard.loadCustomersData env s)) /\
  Dashboard.staff s' = Dashboard.staff (Dashboard.loadStaffData env s) /\
  Dashboard.recentOrders s' =
    Dashboard.recentOrders (Dashboard.loadOrdersData env s) /\
  Dashboard.services s' = Dashboard.services (Dashboard.loadServicesData env s) /\
  snd (Dashboard.loadDashboardData env s) = snd (Dashboard.loadCustomersData env s).
Proof.
  unfold Dashboard.loadDashboardData, Dashboard.loadCustomersData,
    Dashboard.loadStaffData, Dashboard.loadOrdersData, Dashboard.loadServicesData,
    Dashboard.orders_fallback.
  destruct (Dashboard.getAllUsers env 500) as [cr|];
    [destruct (Dashboard.rows cr) as [users|];
     [destruct (Dashboard.all (map _ users)) as [answers|]|]|];
    (destruct (Dashboard.getAllAdminUsers env) as [sr|];
     [destruct (Dashboard.rows sr) as [members|]|]);
    (destruct (Dashboard.getOrdersByStatus env PENDING 5) as [test|];
     [destruct (Dashboard.all (map _ Dashboard.queried)) as [responses|]|]);
    (destruct (Dashboard.getActiveServices env) as [vr|];
     [destruct (Dashboard.rows vr) as [list|]|]);
    repeat split.
Qed.
